(** * blob-converter: the blob wire format, the backup vault and the
      conversion pipeline, embedded from the Python sources

    Sources embedded here:
      - [ascii_preprocess.py]           (single-image blob, [backup_blob])
      - [ascii_preprocess_sequence.py]  (sequence blob, folder and video sources,
                                         the command line [main])
      - [blob_converter_app.py]         (clamping, fps resolution of the service,
                                         the text preview)

    Conventions.  Python integers are [Z].  File contents are [list byte].
    Paths, file names and text are [string] (one [ascii] per character; the
    order on strings is the code-point order Python uses).  [os.path] is
    [posixpath].  Exceptions are explicit: every operation that can raise
    returns a [result], and the file system is threaded as a state.  What the
    scripts [print] is not part of the model. *)

From Stdlib Require Import ZArith Lia QArith Qround Lqa.
From Stdlib Require Import Strings.Ascii.
From Stdlib Require Strings.String Strings.Byte.
From Stdlib Require Import DecimalString DecimalN.
From stdpp Require Import gmap strings list fin_maps sorting.

Local Open Scope Z_scope.

Abbreviation byte := Byte.byte.

(* ===================================================================== *)
(** ** Bytes and [struct.pack] *)
(* ===================================================================== *)

Module Struct.

Definition byte_of_Z (z : Z) : byte :=
  match Byte.of_N (Z.to_N z) with
  | Some b => b
  | None => Byte.x00
  end.

Definition Z_of_byte (b : byte) : Z := Z.of_N (Byte.to_N b).

(** The range [struct.pack] accepts for the format character [H]. *)
Definition u16_ok (n : Z) : bool := (0 <=? n) && (n <=? 65535).

(** [struct.pack("<H", n)]: two bytes, low byte first; [None] stands for
    [struct.error]. *)
Definition pack_H (n : Z) : option (list byte) :=
  if u16_ok n then Some [byte_of_Z (n mod 256); byte_of_Z (n / 256)]
  else None.

(** [struct.pack("<HH", a, b)] *)
Definition pack_HH (a b : Z) : option (list byte) :=
  match pack_H a, pack_H b with
  | Some x, Some y => Some (x ++ y)
  | _, _ => None
  end.

(** [struct.pack("<HHHH", a, b, c, d)] *)
Definition pack_HHHH (a b c d : Z) : option (list byte) :=
  match pack_HH a b, pack_HH c d with
  | Some x, Some y => Some (x ++ y)
  | _, _ => None
  end.

(** [struct.unpack("<H", data[off:off+2])] *)
Definition unpack_H (data : list byte) (off : nat) : option Z :=
  match data !! off, data !! S off with
  | Some lo, Some hi => Some (Z_of_byte lo + 256 * Z_of_byte hi)
  | _, _ => None
  end.

End Struct.

(* ===================================================================== *)
(** ** Python strings and [os.path] (posixpath) *)
(* ===================================================================== *)

Module PyStr.

(** [s[n:]] and [s[:n]] for [0 <= n]. *)
Fixpoint str_drop (n : nat) (s : string) : string :=
  match n, s with
  | O, _ => s
  | S _, "" => ""
  | S n', String _ r => str_drop n' r
  end.

Fixpoint str_take (n : nat) (s : string) : string :=
  match n, s with
  | O, _ => ""
  | S _, "" => ""
  | S n', String a r => String a (str_take n' r)
  end.

(** [s.startswith(pre)] *)
Definition startswith (s pre : string) : bool := String.prefix pre s.

(** [s.endswith(suf)] *)
Definition endswith (s suf : string) : bool :=
  (String.length suf <=? String.length s)%nat
  && String.eqb (str_drop (String.length s - String.length suf) s) suf.

(** [s.rfind(c)] for a one-character [c]: the last index of [c], or [-1].
    [i] is the index of the head of [s], [last] the best index so far. *)
Fixpoint rfind_from (c : ascii) (s : string) (i last : Z) : Z :=
  match s with
  | "" => last
  | String a r => rfind_from c r (i + 1) (if Ascii.eqb a c then i else last)
  end.

Definition rfind (c : ascii) (s : string) : Z := rfind_from c s 0 (-1).

(** [posixpath.basename]: [i = p.rfind('/') + 1; return p[i:]] *)
Definition basename (p : string) : string :=
  str_drop (Z.to_nat (rfind "/"%char p + 1)) p.

(** [p[lo:hi]] holds a character other than ['.'] (the loop of
    [genericpath._splitext] that skips leading dots). *)
Definition has_non_dot (p : string) (lo hi : Z) : bool :=
  existsb (fun a => negb (Ascii.eqb a "."%char))
          (String.list_ascii_of_string
             (str_take (Z.to_nat (hi - lo)) (str_drop (Z.to_nat lo) p))).

(** [posixpath.splitext]: [(root, ext)] *)
Definition splitext (p : string) : string * string :=
  let sepIndex := rfind "/"%char p in
  let dotIndex := rfind "."%char p in
  if (sepIndex <? dotIndex) && has_non_dot p (sepIndex + 1) dotIndex
  then (str_take (Z.to_nat dotIndex) p, str_drop (Z.to_nat dotIndex) p)
  else (p, "").

(** [posixpath.join(a, b)] for a relative [b]. *)
Definition join (a b : string) : string :=
  if String.eqb a "" || endswith a "/" then a +:+ b else a +:+ "/" +:+ b.

(** [str.upper] and [str.lower] on ASCII letters. *)
Definition ascii_upper (a : ascii) : ascii :=
  let n := Ascii.N_of_ascii a in
  if (97 <=? n)%N && (n <=? 122)%N then Ascii.ascii_of_N (n - 32) else a.

Definition ascii_lower (a : ascii) : ascii :=
  let n := Ascii.N_of_ascii a in
  if (65 <=? n)%N && (n <=? 90)%N then Ascii.ascii_of_N (n + 32) else a.

Fixpoint map_string (f : ascii -> ascii) (s : string) : string :=
  match s with
  | "" => ""
  | String a r => String (f a) (map_string f r)
  end.

Definition upper : string -> string := map_string ascii_upper.
Definition lower : string -> string := map_string ascii_lower.

(** [f"{n:03d}"] for [0 <= n]: decimal digits, zero-padded on the left to
    width 3. *)
Fixpoint pad_zeros (k : nat) (d : Decimal.uint) : Decimal.uint :=
  match k with
  | O => d
  | S k' => Decimal.D0 (pad_zeros k' d)
  end.

Definition format_03d (n : N) : string :=
  let d := N.to_uint n in
  NilEmpty.string_of_uint (pad_zeros (3 - Decimal.nb_digits d) d).

End PyStr.


Module PyNum.

(** [int(round(x))] for a finite float [x], taken as the rational it
    denotes: the nearest integer, a tie going to the even one. *)
Definition round (x : Q) : Z :=
  let f := Qfloor x in
  match Qcompare (x - inject_Z f) (1 # 2) with
  | Lt => f
  | Gt => f + 1
  | Eq => if Z.even f then f else f + 1
  end.

End PyNum.

Module Glob.

(** [glob._ishidden] *)
Definition ishidden (name : string) : bool :=
  match name with
  | String "."%char _ => true
  | _ => false
  end.

(** [fnmatch.fnmatchcase(name, pat)] for patterns made of [*], [?] and
    literal characters. *)
Fixpoint fnmatchcase (pat : string) : string -> bool :=
  match pat with
  | "" => fun name => match name with "" => true | _ => false end
  | String "*"%char p =>
      fix star (name : string) : bool :=
        fnmatchcase p name
        || match name with
           | "" => false
           | String _ n => star n
           end
  | String "?"%char p =>
      fun name => match name with
                  | "" => false
                  | String _ n => fnmatchcase p n
                  end
  | String c p =>
      fun name => match name with
                  | "" => false
                  | String a n => Ascii.eqb a c && fnmatchcase p n
                  end
  end.



(** [glob.glob(os.path.join(folder, pat))] where [folder] holds the
    entries [names] and has no pattern character of its own: the
    entries that match, hidden ones skipped unless the pattern itself
    starts with a dot, each joined to [folder].  On POSIX the match is
    case-sensitive ([os.path.normcase] is the identity). *)
Definition glob (folder : string) (names : list string) (pat : string)
  : list string :=
  let visible :=
    if ishidden pat then names
    else List.filter (fun n => negb (ishidden n)) names in
  map (PyStr.join folder) (List.filter (fnmatchcase pat) visible).

End Glob.

Module App.

Definition ASCII_RAMP : string := " .:-=+*#%@".

(** ["\n"] *)
Definition newline : string := String "010"%char "".

(** [idx = brightness * (len(ASCII_RAMP) - 1) // 255] *)
Definition ramp_index (brightness : Z) : Z :=
  brightness * (Z.of_nat (String.length ASCII_RAMP) - 1) / 255.

(** [ASCII_RAMP[idx]]; a negative index counts from the end, an index
    out of range raises [IndexError] ([None]). *)
Definition ramp_char (idx : Z) : option ascii :=
  let n := Z.of_nat (String.length ASCII_RAMP) in
  if (0 <=? idx) && (idx <? n) then String.get (Z.to_nat idx) ASCII_RAMP
  else if (- n <=? idx) && (idx <? 0)
       then String.get (Z.to_nat (n + idx)) ASCII_RAMP
       else None.

(** A line of [cols] characters, each taken from the ramp. *)
Definition ramp_line (cols : Z) (line : string) : Prop :=
  Z.of_nat (String.length line) = cols
  /\ Forall (fun c => c ∈ String.list_ascii_of_string ASCII_RAMP)
            (String.list_ascii_of_string line).

End App.

(* ===================================================================== *)
(** ** Exceptions, the file system and the state monad *)
(* ===================================================================== *)

(** The exceptions the scripts can meet.  [ImageError] stands for whatever
    Pillow raises when an image cannot be opened, decoded or resized. *)
Inductive exn := OSError | StructError | ImageError | SystemExit.

Global Instance exn_eq_dec : EqDecision exn.
Proof. solve_decision. Defined.

Inductive result (A : Type) :=
| Ok (a : A)
| Raise (e : exn).
Arguments Ok {A} a.
Arguments Raise {A} e.

(** The file system: regular files by path, and the entries of the vault
    directory [BACKUP_DIR] by file name.  Output paths are taken to lie
    outside [BACKUP_DIR]. *)
Record World := mkWorld {
  files : gmap string (list byte);
  vault : gmap string (list byte)
}.

(** What the environment decides for one call: the clock and which system
    calls fail with [OSError]. *)
Record Env := mkEnv {
  now : string;              (* datetime.now().strftime("%Y%m%d_%H%M%S") *)
  makedirs_ok : bool;        (* os.makedirs(BACKUP_DIR, exist_ok=True) *)
  listdir_ok : bool;         (* os.listdir(BACKUP_DIR) *)
  copy_ok : bool;            (* shutil.copy2(output_path, backup_path) *)
  open_ok : string -> bool   (* open(path, "wb") *)
}.

Definition M (A : Type) : Type := World -> result A * World.

Definition ret {A} (a : A) : M A := fun w => (Ok a, w).

Definition bind {A B} (m : M A) (k : A -> M B) : M B :=
  fun w => match m w with
           | (Ok a, w') => k a w'
           | (Raise e, w') => (Raise e, w')
           end.

Definition raise {A} (e : exn) : M A := fun w => (Raise e, w).

Notation "'let*' x ':=' m 'in' k" := (bind m (fun x => k))
  (at level 10, x name, m at level 100, k at level 200).
Notation "'let*' ' p ':=' m 'in' k" :=
  (bind m (fun x => match x with p => k end))
  (at level 10, p strict pattern, m at level 100, k at level 200).
Notation "m ';;' k" := (bind m (fun _ => k))
  (at level 100, k at level 200, right associativity).

(** [try: m  except e: pass] *)
Definition try_except_pass (e : exn) (m : M unit) : M unit :=
  fun w => match m w with
           | (Raise e', w') =>
               if bool_decide (e' = e) then (Ok tt, w') else (Raise e', w')
           | r => r
           end.

(** An optional value, raising [e] when absent. *)
Definition lift_opt {A} (e : exn) (o : option A) : M A :=
  match o with
  | Some a => ret a
  | None => raise e
  end.

Module OS.

(** [os.path.exists(p)] *)
Definition path_exists (p : string) : M bool :=
  fun w => (Ok (bool_decide (is_Some (files w !! p))), w).

(** [os.makedirs(BACKUP_DIR, exist_ok=True)] *)
Definition makedirs (env : Env) : M unit :=
  if makedirs_ok env then ret tt else raise OSError.

(** [os.listdir(BACKUP_DIR)] *)
Definition listdir (env : Env) : M (list string) :=
  fun w => if listdir_ok env then (Ok (map_to_list (vault w)).*1, w)
           else (Raise OSError, w).

(** [shutil.copy2(src, os.path.join(BACKUP_DIR, name))]; a failing copy
    is taken to leave no file behind. *)
Definition copy2 (env : Env) (src name : string) : M unit :=
  fun w => match copy_ok env, files w !! src with
           | true, Some c =>
               (Ok tt, mkWorld (files w) (<[name := c]> (vault w)))
           | _, _ => (Raise OSError, w)
           end.

(** [open(p, "wb")]: creates or truncates the file. *)
Definition open_wb (env : Env) (p : string) : M unit :=
  fun w => if open_ok env p
           then (Ok tt, mkWorld (<[p := []]> (files w)) (vault w))
           else (Raise OSError, w).

(** [f.write(bs)] on the file opened at [p]. *)
Definition write (p : string) (bs : list byte) : M unit :=
  fun w => (Ok tt, mkWorld (alter (fun c => c ++ bs) p (files w)) (vault w)).

End OS.

(* ===================================================================== *)
(** ** The converters *)
(* ===================================================================== *)

Section Pipeline.

(** Pillow is an external collaborator.  [Frame] is a PIL image object
    (opened lazily: its pixel data is decoded on first use);
    [image_open p] is [Image.open(p)], [None] when it raises;
    [quantize img cols rows] is
    [img.convert("L").resize((cols, rows), Image.LANCZOS).tobytes()],
    the cells of the resized image in row-major order, [None] when
    decoding or resizing raises. *)
Variable Frame : Type.
Variable image_open : string -> option Frame.
Variable quantize : Frame -> Z -> Z -> option (list byte).

(** [backup_blob(output_path)], the same function in both scripts.
    [backup_name] is the f-string ["{base}_{next_num:03d}_{timestamp}.blob"]
    for [0 <= next_num]. *)
Definition backup_name (base : string) (next_num : Z) (timestamp : string)
  : string :=
  base +:+ "_" +:+ PyStr.format_03d (Z.to_N next_num) +:+ "_"
       +:+ timestamp +:+ ".blob".

Definition backup_base (output_path : string) : string :=
  fst (PyStr.splitext (PyStr.basename output_path)).

Definition existing_backups (base : string) (names : list string)
  : list string :=
  List.filter (fun f => PyStr.startswith f (base +:+ "_")) names.

(** The number of vault files whose name starts with ["<base>_"], as
    [backup_blob] counts them. *)
Definition backup_count (base : string) (v : gmap string (list byte)) : nat :=
  length (existing_backups base (map_to_list v).*1).

(** Every vault file whose name starts with ["<base>_"] is a backup of
    [base] with a sequence number between 1 and [k]. *)
Definition numbered_upto (base : string) (k : nat)
    (v : gmap string (list byte)) : Prop :=
  forall name,
    is_Some (v !! name) ->
    PyStr.startswith name (base +:+ "_") = true ->
    exists j timestamp,
      1 <= j <= Z.of_nat k /\ name = backup_name base j timestamp.

Definition backup_blob (env : Env) (output_path : string) : M unit :=
  let* ex := OS.path_exists output_path in
  if negb ex then ret tt
  else
    try_except_pass OSError
      (OS.makedirs env ;;
       let base := backup_base output_path in
       let* names := OS.listdir env in
       let existing := existing_backups base names in
       let next_num := Z.of_nat (length existing) + 1 in
       let timestamp := now env in
       OS.copy2 env output_path (backup_name base next_num timestamp)).

(** [convert_image_to_ascii_bin(image_path, cols, rows, output_path)] *)
Definition convert_image_to_ascii_bin (env : Env) (image_path : string)
    (cols rows : Z) (output_path : string) : M unit :=
  let* img := lift_opt ImageError (image_open image_path) in
  let* cells := lift_opt ImageError (quantize img cols rows) in
  backup_blob env output_path ;;
  OS.open_wb env output_path ;;
  let* header := lift_opt StructError (Struct.pack_HH cols rows) in
  OS.write output_path header ;;
  OS.write output_path cells.

(** The loop [for i, img in enumerate(frames)] of
    [convert_sequence_to_blob]. *)
Fixpoint write_frames (frames : list Frame) (cols rows : Z)
    (output_path : string) : M unit :=
  match frames with
  | [] => ret tt
  | img :: rest =>
      let* gray := lift_opt ImageError (quantize img cols rows) in
      OS.write output_path gray ;;
      write_frames rest cols rows output_path
  end.

(** The grids of the frames that come before the first one that fails to
    decode, and whether all of them decode. *)
Fixpoint decoded_prefix (frames : list Frame) (cols rows : Z)
  : list (list byte) :=
  match frames with
  | [] => []
  | img :: rest =>
      match quantize img cols rows with
      | Some gray => gray :: decoded_prefix rest cols rows
      | None => []
      end
  end.

Definition all_decode (frames : list Frame) (cols rows : Z) : bool :=
  forallb (fun img => bool_decide (is_Some (quantize img cols rows))) frames.

(** [convert_sequence_to_blob(frames, cols, rows, fps, output_path)] *)
Definition convert_sequence_to_blob (env : Env) (frames : list Frame)
    (cols rows fps : Z) (output_path : string) : M unit :=
  let num_frames := Z.of_nat (length frames) in
  let '(frames, num_frames) :=
    if 65535 <? num_frames
    then (take (Z.to_nat 65535) frames, 65535)
    else (frames, num_frames) in
  backup_blob env output_path ;;
  OS.open_wb env output_path ;;
  let* header :=
    lift_opt StructError (Struct.pack_HHHH cols rows num_frames fps) in
  OS.write output_path header ;;
  write_frames frames cols rows output_path.

(** *** Frame sources of [ascii_preprocess_sequence.py] *)

(** The read-only inputs: [dir_entries p] is [Some names] when [p] is a
    directory holding the entries [names] ([os.path.isdir]); [is_file p]
    is [os.path.isfile(p)]; [HAS_CV2] tells whether OpenCV was imported;
    [video_open p] is [Some (stream, source_fps)] when
    [cv2.VideoCapture(p)] opens, with the frames [cap.read()] yields one
    after the other and [cap.get(cv2.CAP_PROP_FPS)]. *)
Variable dir_entries : string -> option (list string).
Variable is_file : string -> bool.
Variable HAS_CV2 : bool.
Variable video_open : string -> option (list Frame * Q).

(** Python truthiness of an optional integer ([None] and [0] are false). *)
Definition truthy (o : option Z) : bool :=
  match o with
  | Some z => negb (z =? 0)
  | None => false
  end.

(** The [while True] loop of [extract_frames_from_video]; [count] frames
    were appended before [stream] is read. *)
Fixpoint read_frames (stream : list Frame) (max_frames : option Z)
    (count : Z) : list Frame :=
  match stream with
  | [] => []
  | frame :: rest =>
      let count := count + 1 in
      frame ::
        (if truthy max_frames && (default 0 max_frames <=? count)
         then []
         else read_frames rest max_frames count)
  end.

(** [extract_frames_from_video(video_path, max_frames)] *)
Definition extract_frames_from_video (video_path : string)
    (max_frames : option Z) : M (list Frame * Q) :=
  if negb HAS_CV2 then raise SystemExit
  else
    match video_open video_path with
    | None => raise SystemExit
    | Some (stream, source_fps) =>
        ret (read_frames stream max_frames 0, source_fps)
    end.

Definition extensions : list string :=
  ["*.png"; "*.jpg"; "*.jpeg"; "*.bmp"; "*.tiff"].

(** The loop [for ext in extensions] of [gather_frames_from_folder]. *)
Definition gather_globbed (folder_path : string) (names : list string)
  : list string :=
  foldl (fun files ext =>
           (files ++ Glob.glob folder_path names ext)
             ++ Glob.glob folder_path names (PyStr.upper ext))
        [] extensions.

(** [sorted(set(files))] *)
Definition sorted_set (files : list string) : list string :=
  merge_sort String.le (remove_dups files).

(** The paths [gather_frames_from_folder] opens, in the order it opens
    them. *)
Definition gather_files (folder_path : string) (names : list string)
  : list string :=
  sorted_set (gather_globbed folder_path names).

(** [frames = []; for path in files: frames.append(Image.open(path))] *)
Fixpoint open_all (paths : list string) : M (list Frame) :=
  match paths with
  | [] => ret []
  | path :: rest =>
      let* img := lift_opt ImageError (image_open path) in
      let* imgs := open_all rest in
      ret (img :: imgs)
  end.

(** [gather_frames_from_folder(folder_path)]; [glob] finds nothing under
    a path that is no directory. *)
Definition gather_frames_from_folder (folder_path : string)
  : M (list Frame) :=
  let names := default [] (dir_entries folder_path) in
  let files := gather_files folder_path names in
  match files with
  | [] => raise SystemExit
  | _ => open_all files
  end.

(** *** The command line of [ascii_preprocess_sequence.py] *)

Record Args := mkArgs {
  a_input : string;
  a_cols : Z;                 (* --cols, default 100 *)
  a_rows : Z;                 (* --rows, default 60 *)
  a_fps : option Z;           (* --fps, default None *)
  a_max_frames : option Z;    (* --max-frames, default None *)
  a_output : string           (* -o, default "ascii_sequence.blob" *)
}.

(** [l[:n]] *)
Definition slice_to {A} (n : Z) (l : list A) : list A :=
  if 0 <=? n then take (Z.to_nat n) l
  else take (Z.to_nat (Z.of_nat (length l) + n)) l.

Definition video_exts : list string :=
  [".mp4"; ".mov"; ".avi"; ".mkv"; ".webm"; ".gif"].

(** [fps = args.fps if args.fps else 24] *)
Definition folder_fps (fps : option Z) : Z :=
  if truthy fps then default 0 fps else 24.

(** [fps = args.fps if args.fps else max(1, int(round(source_fps)))] *)
Definition video_fps (fps : option Z) (source_fps : Q) : Z :=
  if truthy fps then default 0 fps else Z.max 1 (PyNum.round source_fps).

(** The block "Ensure .blob extension" of [main]. *)
Definition ensure_blob (output : string) : string :=
  if negb (PyStr.endswith output ".blob")
  then fst (PyStr.splitext output) +:+ ".blob"
  else output.

(** [main()] of [ascii_preprocess_sequence.py], after [parse_args]. *)
Definition main (env : Env) (args : Args) : M unit :=
  let input_path := a_input args in
  let* '(frames, fps) :=
    if bool_decide (is_Some (dir_entries input_path)) then
      let* frames := gather_frames_from_folder input_path in
      let frames :=
        if truthy (a_max_frames args)
        then slice_to (default 0 (a_max_frames args)) frames
        else frames in
      ret (frames, folder_fps (a_fps args))
    else if is_file input_path then
      let ext := PyStr.lower (snd (PyStr.splitext input_path)) in
      if bool_decide (ext ∈ video_exts) then
        let* '(frames, source_fps) :=
          extract_frames_from_video input_path (a_max_frames args) in
        ret (frames, video_fps (a_fps args) source_fps)
      else raise SystemExit
    else raise SystemExit in
  match frames with
  | [] => raise SystemExit
  | _ =>
      let output := ensure_blob (a_output args) in
      convert_sequence_to_blob env frames (a_cols args) (a_rows args) fps
                               output
  end.

(** *** The command line of [ascii_preprocess.py] *)

(** The block under [if __name__ == "__main__"], for
    [python ascii_preprocess.py image_path cols rows output_path]. *)
Definition main_single (env : Env) (image_path : string) (cols rows : Z)
    (output_path : string) : M unit :=
  convert_image_to_ascii_bin env image_path cols rows output_path.

(** *** The web service [blob_converter_app.py] *)

(** The handlers are modelled from the point where the upload has been
    accepted and the form values have been read as integers
    ([request.form.get(..., type=int)]). *)
Inductive Response :=
| SendFile (data : list byte)                    (* send_file(output_path) *)
| JsonError (status : Z)                         (* jsonify(error=...), status *)
| JsonPreview (preview : string) (cols rows : Z) (* jsonify(preview=..., ...) *).

(** [max(1, min(n, 500))] *)
Definition clamp (n : Z) : Z := Z.max 1 (Z.min n 500).

(** [try: m  except Exception as e: return jsonify(error=str(e)), 500];
    [SystemExit] is not an [Exception]. *)
Definition except_Exception (m : M Response) : M Response :=
  fun w => match m w with
           | (Raise SystemExit, w') => (Raise SystemExit, w')
           | (Raise _, w') => (Ok (JsonError 500), w')
           | r => r
           end.

(** [send_file(output_path, ...)] *)
Definition send_file (output_path : string) : M Response :=
  fun w => match files w !! output_path with
           | Some data => (Ok (SendFile data), w)
           | None => (Raise OSError, w)
           end.

(** The wrapper [extract_frames_from_video] of the service: [SystemExit]
    becomes a [RuntimeError], which [except Exception] catches like the
    other errors; it is rendered as [ImageError] here. *)
Definition app_extract_frames_from_video (video_path : string)
    (max_frames : option Z) : M (list Frame * Q) :=
  fun w => match extract_frames_from_video video_path max_frames w with
           | (Raise SystemExit, w') => (Raise ImageError, w')
           | r => r
           end.

(** [convert_image()] *)
Definition convert_image (env : Env) (input_path output_path : string)
    (cols rows : Z) : M Response :=
  let cols := clamp cols in
  let rows := clamp rows in
  except_Exception
    (convert_image_to_ascii_bin env input_path cols rows output_path ;;
     send_file output_path).

(** [actual_fps = fps if fps > 0 else max(1, int(round(source_fps)))] *)
Definition actual_fps (fps : Z) (source_fps : Q) : Z :=
  if 0 <? fps then fps else Z.max 1 (PyNum.round source_fps).

(** [convert_video()] *)
Definition convert_video (env : Env) (input_path output_path : string)
    (cols rows fps max_frames : Z) : M Response :=
  if negb HAS_CV2 then ret (JsonError 400)
  else
    let cols := clamp cols in
    let rows := clamp rows in
    except_Exception
      (let* '(frames, source_fps) :=
         app_extract_frames_from_video input_path
           (if 0 <? max_frames then Some max_frames else None) in
       match frames with
       | [] => ret (JsonError 400)
       | _ =>
           convert_sequence_to_blob env frames cols rows
                                    (actual_fps fps source_fps) output_path ;;
           send_file output_path
       end).

(** [preview()]: the two nested loops, [None] when an index is out of
    range ([IndexError]). *)
Definition preview_char (pixels : list byte) (cols row col : Z)
  : option ascii :=
  brightness ← pixels !! Z.to_nat (row * cols + col);
  App.ramp_char (App.ramp_index (Struct.Z_of_byte brightness)).

Definition preview_line (pixels : list byte) (cols row : Z)
  : option string :=
  chars ← mapM (preview_char pixels cols row) (seqZ 0 cols);
  Some (String.string_of_list_ascii chars).

Definition preview_lines (pixels : list byte) (cols rows : Z)
  : option (list string) :=
  mapM (preview_line pixels cols) (seqZ 0 rows).

Definition preview (upload : option Frame) (cols rows : Z) : Response :=
  let cols := clamp cols in
  let rows := clamp rows in
  match upload with
  | None => JsonError 500
  | Some img =>
      match quantize img cols rows with
      | None => JsonError 500
      | Some pixels =>
          match preview_lines pixels cols rows with
          | None => JsonError 500
          | Some lines =>
              JsonPreview (String.concat App.newline lines) cols rows
          end
      end
  end.

(** *** Successive conversions to one output path *)

(** One conversion request, by either script. *)
Inductive Job :=
| SingleJob (image_path : string) (cols rows : Z)
| SequenceJob (frames : list Frame) (cols rows fps : Z).

Definition run_job (env : Env) (job : Job) (output_path : string) : M unit :=
  match job with
  | SingleJob image_path cols rows =>
      convert_image_to_ascii_bin env image_path cols rows output_path
  | SequenceJob frames cols rows fps =>
      convert_sequence_to_blob env frames cols rows fps output_path
  end.

(** The conversions of [jobs], one after the other, each under the
    environment it meets. *)
Fixpoint run_jobs (jobs : list (Env * Job)) (output_path : string) : M unit :=
  match jobs with
  | [] => ret tt
  | (env, job) :: rest =>
      run_job env job output_path ;; run_jobs rest output_path
  end.

(** The storage is writable for [output_path] and for the vault. *)
Definition writable (env : Env) (output_path : string) : bool :=
  makedirs_ok env && listdir_ok env && copy_ok env && open_ok env output_path.

(** The inputs of [job] decode and its header fields fit [u16]. *)
Definition job_decodes (job : Job) : bool :=
  match job with
  | SingleJob image_path cols rows =>
      match image_open image_path with
      | Some img =>
          bool_decide (is_Some (quantize img cols rows))
          && Struct.u16_ok cols && Struct.u16_ok rows
      | None => false
      end
  | SequenceJob frames cols rows fps =>
      forallb (fun img => bool_decide (is_Some (quantize img cols rows)))
              (take (Z.to_nat 65535) frames)
      && Struct.u16_ok cols && Struct.u16_ok rows && Struct.u16_ok fps
  end.

Definition job_ok (output_path : string) (ej : Env * Job) : bool :=
  writable (fst ej) output_path && job_decodes (snd ej).

End Pipeline.

Arguments SingleJob {Frame} image_path cols rows.
Arguments SequenceJob {Frame} frames cols rows fps.
Arguments convert_image_to_ascii_bin {Frame}.
Arguments write_frames {Frame}.
Arguments decoded_prefix {Frame}.
Arguments all_decode {Frame}.
Arguments convert_sequence_to_blob {Frame}.
Arguments read_frames {Frame}.
Arguments extract_frames_from_video {Frame}.
Arguments open_all {Frame}.
Arguments gather_frames_from_folder {Frame}.
Arguments main {Frame}.
Arguments main_single {Frame}.
Arguments app_extract_frames_from_video {Frame}.
Arguments convert_image {Frame}.
Arguments convert_video {Frame}.
Arguments preview {Frame}.
Arguments run_job {Frame}.
Arguments run_jobs {Frame}.
Arguments job_decodes {Frame}.
Arguments job_ok {Frame}.

(* ===================================================================== *)
(** ** The wire format, as a reader of a blob sees it *)
(* ===================================================================== *)

Module Blob.



(** The text holds no line break. *)
Definition no_newline (s : string) : Prop :=
  Forall (fun c => Ascii.eqb c "010"%char = false)
         (String.list_ascii_of_string s).

(** [text.split("\n")] *)
Fixpoint split_lines (text : string) : list string :=
  match text with
  | "" => [""]
  | String a rest =>
      match split_lines rest with
      | [] => [String a ""]
      | line :: lines =>
          if Ascii.eqb a "010"%char then "" :: line :: lines
          else String a line :: lines
      end
  end.

End Blob.

(* ===================================================================== *)
(** ** A small decoder and file tree to run the model on *)
(* ===================================================================== *)

Module Fixture.

(** A frame is a solid image of one brightness, or a file whose pixel data
    does not decode. *)
Inductive ToyFrame :=
| Solid (v : byte)
| Corrupt.

(** Resizing a solid image gives a solid grid; sizes must be positive. *)
Definition quantize (img : ToyFrame) (cols rows : Z) : option (list byte) :=
  match img with
  | Solid v =>
      if (0 <? cols) && (0 <? rows)
      then Some (replicate (Z.to_nat (cols * rows)) v)
      else None
  | Corrupt => None
  end.

Definition image_open (path : string) : option ToyFrame :=
  if String.eqb path "gray.png" then Some (Solid Byte.x80)
  else if String.eqb path "frames/a.png" then Some (Solid Byte.x0a)
  else if String.eqb path "frames/b.png" then Some (Solid Byte.x0b)
  else if String.eqb path "frames/c.png" then Some (Solid Byte.x0c)
  else if String.eqb path "broken/a.png" then Some (Solid Byte.x0a)
  else if String.eqb path "broken/b.png" then Some Corrupt
  else None.

Definition dir_entries (path : string) : option (list string) :=
  if String.eqb path "frames" then Some ["b.png"; "a.png"; "c.png"]
  else if String.eqb path "broken" then Some ["b.png"; "a.png"]
  else if String.eqb path "mixed"
       then Some ["a.Png"; ".b.png"; "c.PNG"; "d.png"; "e.txt"]
  else None.

Definition is_file (path : string) : bool := String.eqb path "clip.mp4".

Definition video_open (path : string) : option (list ToyFrame * Q) :=
  if String.eqb path "clip.mp4"
  then Some ([Solid Byte.x01; Solid Byte.x02; Solid Byte.x03], 2997 # 100)
  else None.

(** Everything works and the clock reads [ts]. *)
Definition env_ok (ts : string) : Env :=
  mkEnv ts true true true (fun _ => true).

(** The vault is on read-only storage. *)
Definition env_readonly_vault (ts : string) : Env :=
  mkEnv ts false false false (fun _ => true).

Definition empty_world : World := mkWorld ∅ ∅.

Definition convert_image_to_ascii_bin :=
  convert_image_to_ascii_bin image_open quantize.
Definition convert_sequence_to_blob :=
  convert_sequence_to_blob quantize.
Definition main :=
  main image_open quantize dir_entries is_file true video_open.
Definition main_single := main_single image_open quantize.
Definition gather_frames_from_folder :=
  gather_frames_from_folder image_open dir_entries.
Definition convert_video :=
  convert_video quantize true video_open.
Definition preview := preview quantize.
Definition run_jobs := run_jobs image_open quantize.

End Fixture.

(* ===================================================================== *)
(** ** More of the sources: upload checks of the web service *)
(* ===================================================================== *)

Module PyStrMore.

(** [c in s] for a one-character [c]. *)
Definition has_char (c : ascii) (s : string) : Prop :=
  In c (String.list_ascii_of_string s).

End PyStrMore.

Section Routes.

Context {Frame : Type}.
Variable image_open : string -> option Frame.
Variable quantize : Frame -> Z -> Z -> option (list byte).
Variable HAS_CV2 : bool.
Variable video_open : string -> option (list Frame * Q).

Definition IMAGE_EXTENSIONS : list string :=
  [".png"; ".jpg"; ".jpeg"; ".bmp"; ".tiff"; ".tif"; ".webp"].

Definition VIDEO_EXTENSIONS : list string :=
  [".mp4"; ".mov"; ".avi"; ".mkv"; ".webm"; ".gif"].

(** [os.path.splitext(file.filename)[1].lower()] *)
Definition upload_ext (filename : string) : string :=
  PyStr.lower (snd (PyStr.splitext filename)).

(** [convert_image()] with its checks of the request.  [upload] is the
    file name of [request.files["file"]], [None] when the request has no
    such part; [tmp_dir] is the directory [tempfile.mkdtemp()] made, where
    [file.save] puts the upload as [input<ext>]. *)
Definition convert_image_route (env : Env) (upload : option string)
    (tmp_dir : string) (cols rows : Z) : M Response :=
  match upload with
  | None => ret (JsonError 400)
  | Some filename =>
      if String.eqb filename "" then ret (JsonError 400)
      else
        let ext := upload_ext filename in
        if negb (bool_decide (ext ∈ IMAGE_EXTENSIONS))
        then ret (JsonError 400)
        else
          convert_image image_open quantize env
            (PyStr.join tmp_dir ("input" +:+ ext))
            (PyStr.join tmp_dir "ascii_data.blob") cols rows
  end.

(** [convert_video()] with its checks of the request. *)
Definition convert_video_route (env : Env) (upload : option string)
    (tmp_dir : string) (cols rows fps max_frames : Z) : M Response :=
  if negb HAS_CV2 then ret (JsonError 400)
  else
    match upload with
    | None => ret (JsonError 400)
    | Some filename =>
        if String.eqb filename "" then ret (JsonError 400)
        else
          let ext := upload_ext filename in
          if negb (bool_decide (ext ∈ VIDEO_EXTENSIONS))
          then ret (JsonError 400)
          else
            convert_video quantize HAS_CV2 video_open env
              (PyStr.join tmp_dir ("input" +:+ ext))
              (PyStr.join tmp_dir "ascii_sequence.blob")
              cols rows fps max_frames
    end.

End Routes.

Arguments convert_image_route {Frame}.
Arguments convert_video_route {Frame}.

Module ServiceFixture.

(** The upload saved in the request's temporary directory. *)
Definition image_open (path : string) : option Fixture.ToyFrame :=
  if String.eqb path "tmp1/input.png" then Some (Fixture.Solid Byte.x80)
  else None.

Definition video_open (path : string)
  : option (list Fixture.ToyFrame * Q) :=
  if String.eqb path "tmp1/input.gif"
  then Some ([Fixture.Solid Byte.x01; Fixture.Solid Byte.x02;
              Fixture.Solid Byte.x03], 10 # 1)
  else None.

End ServiceFixture.

(* ===================================================================== *)
(** ** More of the sources: the test script [generate_test_image.py] *)
(* ===================================================================== *)

Section TestImage.

Context {Frame : Type}.
Variable image_open : string -> option Frame.
Variable quantize : Frame -> Z -> Z -> option (list byte).

(** [with open(path, "rb") as f: data = f.read()]; a file that exists is
    taken to be readable. *)
Definition read_rb (path : string) : M (list byte) :=
  fun w => match files w !! path with
           | Some data => (Ok data, w)
           | None => (Raise OSError, w)
           end.

(** [struct.unpack("<HH", data[:4])] *)
Definition unpack_HH (data : list byte) : option (Z * Z) :=
  match Struct.unpack_H (take 4 data) 0, Struct.unpack_H (take 4 data) 2 with
  | Some cols, Some rows => Some (cols, rows)
  | _, _ => None
  end.

(** The script [generate_test_image.py] from [img.save] to
    [body = data[4:]].  [png] is what [img.save] writes for the gradient
    the script draws, and [image_open "test_gradient.png"] is that image
    read back.  The result is (cols, rows, body), from which the script
    prints its verification report. *)
Definition generate_test_image (env : Env) (png : list byte)
  : M (Z * Z * list byte) :=
  OS.open_wb env "test_gradient.png" ;;
  OS.write "test_gradient.png" png ;;
  convert_image_to_ascii_bin image_open quantize env "test_gradient.png"
    100 60 "ascii_data.blob" ;;
  let* data := read_rb "ascii_data.bin" in
  let* ' (cols, rows) := lift_opt StructError (unpack_HH data) in
  let body := drop 4 data in
  ret (cols, rows, body).

End TestImage.

Arguments generate_test_image {Frame}.

Module ScriptFixture.

(** The gradient the script saved, read back. *)
Definition image_open (path : string) : option Fixture.ToyFrame :=
  if String.eqb path "test_gradient.png" then Some (Fixture.Solid Byte.x80)
  else None.

End ScriptFixture.

Module VaultFixture.

(** A blob at the output path, one earlier backup of it and a backup of
    another blob in the vault. *)
Definition world : World :=
  mkWorld {["art/out.blob" := [Byte.x02]]}
    (<["out_001_20240101_120000.blob" := [Byte.x01]]>
       {["logo_001_20240101_110000.blob" := [Byte.x09]]}).

End VaultFixture.


(* ===================================================================== *)
(** * Properties *)
(* ===================================================================== *)

(** ** [struct.pack] and [struct.unpack] *)

Module StructFacts.
Import Struct.

Lemma Z_of_byte_range (b : byte) : 0 <= Z_of_byte b < 256.
Proof.
unfold Z_of_byte. pose proof (Byte.to_N_bounded b) as Hb. lia.
Qed.

Lemma Z_of_byte_of_Z (z : Z) : 0 <= z < 256 -> Z_of_byte (byte_of_Z z) = z.
Proof.
intros Hz. unfold Z_of_byte, byte_of_Z.
destruct (Byte.of_N (Z.to_N z)) as [b|] eqn:E.
- apply Byte.to_of_N in E. rewrite E. lia.
- apply Byte.of_N_None_iff in E. lia.
Qed.

Lemma byte_of_Z_of_byte (b : byte) : byte_of_Z (Z_of_byte b) = b.
Proof.
unfold Z_of_byte, byte_of_Z. rewrite N2Z.id, Byte.of_to_N. reflexivity.
Qed.

Lemma u16_ok_spec (n : Z) : u16_ok n = true <-> 0 <= n <= 65535.
Proof. unfold u16_ok. rewrite andb_true_iff, !Z.leb_le. tauto. Qed.

Lemma pack_H_length (n : Z) (bs : list byte) :
pack_H n = Some bs -> length bs = 2%nat.
Proof.
unfold pack_H. destruct (u16_ok n); intros H; inversion H. reflexivity.
Qed.

Lemma pack_H_Some (n : Z) :
0 <= n <= 65535 ->
pack_H n = Some [byte_of_Z (n mod 256); byte_of_Z (n / 256)].
Proof.
intros H. unfold pack_H. apply u16_ok_spec in H. rewrite H. reflexivity.
Qed.

Lemma pack_H_None (n : Z) : ~ (0 <= n <= 65535) -> pack_H n = None.
Proof.
intros H. unfold pack_H. destruct (u16_ok n) eqn:E; [|reflexivity].
apply u16_ok_spec in E. contradiction.
Qed.

Lemma unpack_pack_H (n : Z) (bs rest : list byte) :
pack_H n = Some bs -> unpack_H (bs ++ rest) 0 = Some n.
Proof.
unfold pack_H. destruct (u16_ok n) eqn:E; intros H; inversion H; subst.
apply u16_ok_spec in E. unfold unpack_H. simpl.
rewrite !Z_of_byte_of_Z.
- f_equal. pose proof (Z.div_mod n 256). lia.
- split; [apply Z.div_pos; lia | apply Z.div_lt_upper_bound; lia].
- apply Z.mod_pos_bound. lia.
Qed.

Lemma unpack_H_app (pre data : list byte) (off : nat) :
unpack_H (pre ++ data) (length pre + off) = unpack_H data off.
Proof.
unfold unpack_H.
replace (S (length pre + off)) with (length pre + S off)%nat by lia.
rewrite !lookup_app_r by lia.
replace (length pre + off - length pre)%nat with off by lia.
replace (length pre + S off - length pre)%nat with (S off) by lia.
reflexivity.
Qed.

Lemma pack_HH_Some (a b : Z) (bs : list byte) :
  pack_HH a b = Some bs ->
  (0 <= a <= 65535) /\ (0 <= b <= 65535) /\ length bs = 4%nat /\
  unpack_H bs 0 = Some a /\ unpack_H bs 2 = Some b.
Proof.
  unfold pack_HH.
  destruct (pack_H a) as [x|] eqn:Ha; [|discriminate].
  destruct (pack_H b) as [y|] eqn:Hb; [|discriminate].
  intros [= <-].
  pose proof (pack_H_length _ _ Ha) as La.
  pose proof (pack_H_length _ _ Hb) as Lb.
  assert (Ra : 0 <= a <= 65535).
  { destruct (decide (0 <= a <= 65535)) as [?|N]; [done|].
    rewrite (pack_H_None _ N) in Ha. discriminate. }
  assert (Rb : 0 <= b <= 65535).
  { destruct (decide (0 <= b <= 65535)) as [?|N]; [done|].
    rewrite (pack_H_None _ N) in Hb. discriminate. }
  repeat split; try lia.
  - rewrite length_app. lia.
  - eapply unpack_pack_H. exact Ha.
  - pose proof (unpack_H_app x y 0) as E. rewrite La in E. simpl in E.
    rewrite E. rewrite <- (app_nil_r y). eapply unpack_pack_H. exact Hb.
Qed.

Lemma unpack_H_app_l (data rest : list byte) (off : nat) (n : Z) :
  unpack_H data off = Some n -> unpack_H (data ++ rest) off = Some n.
Proof.
  unfold unpack_H.
  destruct (data !! off) as [lo|] eqn:E1; [|discriminate].
  destruct (data !! S off) as [hi|] eqn:E2; [|discriminate].
  intros H.
  rewrite (lookup_app_l_Some _ _ _ _ E1), (lookup_app_l_Some _ _ _ _ E2).
  exact H.
Qed.

Lemma pack_HHHH_Some (a b c d : Z) (bs : list byte) :
  pack_HHHH a b c d = Some bs ->
  (0 <= a <= 65535) /\ (0 <= b <= 65535) /\
  (0 <= c <= 65535) /\ (0 <= d <= 65535) /\ length bs = 8%nat /\
  unpack_H bs 0 = Some a /\ unpack_H bs 2 = Some b /\
  unpack_H bs 4 = Some c /\ unpack_H bs 6 = Some d.
Proof.
  unfold pack_HHHH.
  destruct (pack_HH a b) as [x|] eqn:Hx; [|discriminate].
  destruct (pack_HH c d) as [y|] eqn:Hy; [|discriminate].
  intros [= <-].
  apply pack_HH_Some in Hx as (Ra & Rb & Lx & Ua & Ub).
  apply pack_HH_Some in Hy as (Rc & Rd & Ly & Uc & Ud).
  repeat split; try lia.
  - rewrite length_app. lia.
  - by apply unpack_H_app_l.
  - by apply unpack_H_app_l.
  - pose proof (unpack_H_app x y 0) as E. rewrite Lx in E. simpl in E.
    by rewrite E.
  - pose proof (unpack_H_app x y 2) as E. rewrite Lx in E. simpl in E.
    by rewrite E.
Qed.

Lemma pack_HH_ok (a b : Z) :
  0 <= a <= 65535 -> 0 <= b <= 65535 -> is_Some (pack_HH a b).
Proof.
  intros Ha Hb. unfold pack_HH.
  rewrite (pack_H_Some _ Ha), (pack_H_Some _ Hb). eauto.
Qed.

Lemma pack_HHHH_ok (a b c d : Z) :
  0 <= a <= 65535 -> 0 <= b <= 65535 ->
  0 <= c <= 65535 -> 0 <= d <= 65535 -> is_Some (pack_HHHH a b c d).
Proof.
  intros Ha Hb Hc Hd. unfold pack_HHHH.
  destruct (pack_HH_ok a b Ha Hb) as [x ->].
  destruct (pack_HH_ok c d Hc Hd) as [y ->]. eauto.
Qed.

(** The sequence header of the specification's example: cols=80, rows=48,
    frameCount=120, fps=12 is [50 00 30 00 78 00 0C 00]. *)
Example pack_header_example :
  pack_HHHH 80 48 120 12
  = Some [Byte.x50; Byte.x00; Byte.x30; Byte.x00;
          Byte.x78; Byte.x00; Byte.x0c; Byte.x00].
Proof. reflexivity. Qed.

End StructFacts.

(** ** Python strings and paths on examples *)

Module PyStrTests.
Import PyStr.

Example basename_nested : basename "out/dir.v2/ascii_data.blob" = "ascii_data.blob".
Proof. reflexivity. Qed.
Example basename_plain : basename "ascii_data.blob" = "ascii_data.blob".
Proof. reflexivity. Qed.
Example splitext_blob : splitext "ascii_data.blob" = ("ascii_data", ".blob").
Proof. reflexivity. Qed.
Example splitext_two_dots : splitext "a.tar.gz" = ("a.tar", ".gz").
Proof. reflexivity. Qed.
Example splitext_dir_dot : splitext "dir.v2/out" = ("dir.v2/out", "").
Proof. reflexivity. Qed.
Example splitext_hidden : splitext "d/.bashrc" = ("d/.bashrc", "").
Proof. reflexivity. Qed.
Example splitext_hidden_ext : splitext "..a.png" = ("..a", ".png").
Proof. reflexivity. Qed.
Example endswith_yes : endswith "out.blob" ".blob" = true.
Proof. reflexivity. Qed.
Example endswith_no : endswith "out.bin" ".blob" = false.
Proof. reflexivity. Qed.
Example endswith_short : endswith "lob" ".blob" = false.
Proof. reflexivity. Qed.
Example join_plain : join "frames" "a.png" = "frames/a.png".
Proof. reflexivity. Qed.
Example join_slash : join "frames/" "a.png" = "frames/a.png".
Proof. reflexivity. Qed.
Example upper_pat : upper "*.png" = "*.PNG".
Proof. reflexivity. Qed.
Example lower_ext : lower ".PnG" = ".png".
Proof. reflexivity. Qed.
Example format_1 : format_03d 1 = "001".
Proof. reflexivity. Qed.
Example format_0 : format_03d 0 = "000".
Proof. reflexivity. Qed.
Example format_42 : format_03d 42 = "042".
Proof. reflexivity. Qed.
Example format_999 : format_03d 999 = "999".
Proof. reflexivity. Qed.
Example format_1000 : format_03d 1000 = "1000".
Proof. reflexivity. Qed.
End PyStrTests.

(** ** The converters, step by step *)

Section ConverterFacts.

Context {Frame : Type}.
Variable image_open : string -> option Frame.
Variable quantize : Frame -> Z -> Z -> option (list byte).

Lemma world_eta (w : World) : mkWorld (files w) (vault w) = w.
Proof. by destruct w. Qed.

(** [backup_blob] never raises and never touches a regular file. *)
Lemma backup_blob_ok (env : Env) (output_path : string) (w : World) :
  fst (backup_blob env output_path w) = Ok tt
  /\ files (snd (backup_blob env output_path w)) = files w.
Proof.
  unfold backup_blob, bind, OS.path_exists. simpl.
  destruct (bool_decide (is_Some (files w !! output_path))); simpl; [|done].
  unfold try_except_pass, bind, OS.makedirs, OS.listdir, OS.copy2, ret, raise.
  destruct (makedirs_ok env); simpl; [|done].
  destruct (listdir_ok env); simpl; [|done].
  destruct (copy_ok env); simpl; [|done].
  destruct (files w !! output_path); simpl; done.
Qed.

Lemma backup_blob_eq (env : Env) (output_path : string) (w : World) :
  backup_blob env output_path w
  = (Ok tt, mkWorld (files w) (vault (snd (backup_blob env output_path w)))).
Proof.
  destruct (backup_blob_ok env output_path w) as [H1 H2].
  destruct (backup_blob env output_path w) as [r w1]. simpl in *.
  subst r. rewrite <- H2. by rewrite world_eta.
Qed.

(** Nothing to back up when the destination does not exist yet. *)
Lemma backup_blob_absent (env : Env) (output_path : string) (w : World) :
  files w !! output_path = None ->
  backup_blob env output_path w = (Ok tt, w).
Proof.
  intros H. unfold backup_blob, bind, OS.path_exists. simpl.
  rewrite H. rewrite bool_decide_false; [done|]. by intros [? ?].
Qed.

(** With working storage the existing file is copied under the next
    sequence number. *)
Lemma backup_blob_present (env : Env) (output_path : string) (w : World)
    (cur : list byte) :
  files w !! output_path = Some cur ->
  makedirs_ok env = true -> listdir_ok env = true -> copy_ok env = true ->
  backup_blob env output_path w
  = (Ok tt,
     mkWorld (files w)
       (<[backup_name (backup_base output_path)
            (Z.of_nat (length (existing_backups (backup_base output_path)
                                 (map_to_list (vault w)).*1)) + 1)
            (now env) := cur]> (vault w))).
Proof.
  intros H Hm Hl Hc. unfold backup_blob, bind, OS.path_exists. simpl.
  rewrite H. rewrite bool_decide_true by eauto. simpl.
  unfold try_except_pass, bind, OS.makedirs, OS.listdir, OS.copy2, ret.
  rewrite Hm. simpl. rewrite Hl. simpl. rewrite Hc, H. done.
Qed.

Lemma all_decode_prefix (frames : list Frame) (cols rows : Z) :
  all_decode quantize frames cols rows = true ->
  mapM (fun img => quantize img cols rows) frames
  = Some (decoded_prefix quantize frames cols rows).
Proof.
  induction frames as [|img rest IH]; simpl; [done|].
  intros H. apply andb_true_iff in H as [H1 H2].
  apply bool_decide_eq_true in H1 as [g Hg]. rewrite Hg. simpl.
  rewrite (IH H2). done.
Qed.

(** The frame loop appends the grids up to the first frame that fails and
    raises exactly when one fails. *)
Lemma write_frames_eq (frames : list Frame) (cols rows : Z)
    (output_path : string) (w : World) :
  write_frames quantize frames cols rows output_path w
  = (if all_decode quantize frames cols rows then Ok tt else Raise ImageError,
     mkWorld
       (alter (fun c => c ++ concat (decoded_prefix quantize frames cols rows))
              output_path (files w))
       (vault w)).
Proof.
  revert w. induction frames as [|img rest IH]; intros w.
  - simpl. unfold ret. f_equal. destruct w as [fs v]. simpl. f_equal.
    apply map_eq. intros i. rewrite lookup_alter.
    case_decide; [subst i|done].
    destruct (fs !! output_path); simpl; [|done]. by rewrite app_nil_r.
  - unfold all_decode. cbn [write_frames decoded_prefix forallb].
    fold (all_decode quantize rest cols rows).
    unfold bind at 1.
    destruct (quantize img cols rows) as [g|] eqn:Hg; simpl.
    + unfold bind, OS.write. rewrite IH. simpl. f_equal. f_equal.
      apply map_eq. intros i. rewrite !lookup_alter.
      case_decide; [subst i|done].
      rewrite decide_True by done.
      destruct (files w !! output_path); simpl; [|done].
      by rewrite app_assoc.
    + unfold raise. f_equal. destruct w as [fs v]. simpl. f_equal.
      apply map_eq. intros i. rewrite lookup_alter.
      case_decide; [subst i|done].
      destruct (fs !! output_path); simpl; [|done]. by rewrite app_nil_r.
Qed.

(** Every way [convert_image_to_ascii_bin] can end. *)
Lemma convert_image_eq (env : Env) (image_path : string) (cols rows : Z)
    (output_path : string) (w : World) :
  convert_image_to_ascii_bin image_open quantize env image_path cols rows
                             output_path w
  = match image_open image_path with
    | None => (Raise ImageError, w)
    | Some img =>
        match quantize img cols rows with
        | None => (Raise ImageError, w)
        | Some cells =>
            let v1 := vault (snd (backup_blob env output_path w)) in
            if open_ok env output_path then
              match Struct.pack_HH cols rows with
              | None =>
                  (Raise StructError,
                   mkWorld (<[output_path := []]> (files w)) v1)
              | Some header =>
                  (Ok tt,
                   mkWorld (<[output_path := header ++ cells]> (files w)) v1)
              end
            else (Raise OSError, mkWorld (files w) v1)
        end
    end.
Proof.
  unfold convert_image_to_ascii_bin. unfold bind at 1.
  destruct (image_open image_path) as [img|]; simpl; [|done].
  unfold bind at 1.
  destruct (quantize img cols rows) as [cells|]; simpl; [|done].
  unfold bind at 1. rewrite backup_blob_eq.
  unfold bind at 1. unfold OS.open_wb. simpl.
  destruct (open_ok env output_path); [|done].
  unfold bind at 1.
  destruct (Struct.pack_HH cols rows) as [header|]; simpl; [|done].
  unfold bind, OS.write. simpl. f_equal. f_equal.
  by rewrite !alter_insert_eq.
Qed.

(** The frames [convert_sequence_to_blob] keeps and the count it packs. *)
Lemma truncation_cases (frames : list Frame) :
  (if 65535 <? Z.of_nat (length frames)
   then (take (Z.to_nat 65535) frames, 65535)
   else (frames, Z.of_nat (length frames)))
  = (take (Z.to_nat 65535) frames,
     Z.min 65535 (Z.of_nat (length frames))).
Proof.
  destruct (65535 <? Z.of_nat (length frames)) eqn:E.
  - apply Z.ltb_lt in E. f_equal. lia.
  - apply Z.ltb_ge in E. f_equal; [|lia].
    symmetry. apply take_ge. lia.
Qed.

(** Every way [convert_sequence_to_blob] can end. *)
Lemma convert_sequence_eq (env : Env) (frames : list Frame)
    (cols rows fps : Z) (output_path : string) (w : World) :
  convert_sequence_to_blob quantize env frames cols rows fps output_path w
  = let kept := take (Z.to_nat 65535) frames in
    let num_frames := Z.min 65535 (Z.of_nat (length frames)) in
    let v1 := vault (snd (backup_blob env output_path w)) in
    if open_ok env output_path then
      match Struct.pack_HHHH cols rows num_frames fps with
      | None =>
          (Raise StructError, mkWorld (<[output_path := []]> (files w)) v1)
      | Some header =>
          (if all_decode quantize kept cols rows
           then Ok tt else Raise ImageError,
           mkWorld
             (<[output_path :=
                  header ++ concat (decoded_prefix quantize kept cols rows)]>
                (files w)) v1)
      end
    else (Raise OSError, mkWorld (files w) v1).
Proof.
  unfold convert_sequence_to_blob. rewrite truncation_cases.
  unfold bind at 1. rewrite backup_blob_eq.
  unfold bind at 1. unfold OS.open_wb. simpl.
  destruct (open_ok env output_path); [|done].
  unfold bind at 1.
  destruct (Struct.pack_HHHH _ _ _ _) as [header|]; simpl; [|done].
  unfold bind, OS.write. simpl. rewrite write_frames_eq. simpl.
  f_equal. f_equal. by rewrite !alter_insert_eq.
Qed.

End ConverterFacts.

(** ** The written blobs *)

Section BlobLayout.

Context {Frame : Type}.
Variable image_open : string -> option Frame.
Variable quantize : Frame -> Z -> Z -> option (list byte).

(** Pillow's contract: the bytes of an image resized to [(cols, rows)] in
    mode [L] are its [cols*rows] cells. *)
Hypothesis quantize_length :
  forall img cols rows cells,
    quantize img cols rows = Some cells ->
    Z.of_nat (length cells) = cols * rows.

Lemma decoded_prefix_length (frames : list Frame) (cols rows : Z) :
  all_decode quantize frames cols rows = true ->
  length (decoded_prefix quantize frames cols rows) = length frames
  /\ Z.of_nat (length (concat (decoded_prefix quantize frames cols rows)))
     = Z.of_nat (length frames) * (cols * rows).
Proof.
  induction frames as [|img rest IH]; simpl; [done|].
  intros H. apply andb_true_iff in H as [H1 H2].
  apply bool_decide_eq_true in H1 as [g Hg]. rewrite Hg. simpl.
  destruct (IH H2) as [L1 L2]. split; [by rewrite L1|].
  rewrite length_app, Nat2Z.inj_add, L2, (quantize_length _ _ _ _ Hg). lia.
Qed.

(** C2.  For all cols, rows in [1,500] and a source image that decodes,
    [convert_image_to_ascii_bin] succeeds and leaves at the output path a
    file of exactly [4 + cols*rows] bytes: cols then rows as little-endian
    u16 (decoding the header gives back cols and rows), followed by the
    [cols*rows] cells of the resized image in the order Pillow gives them
    (row-major). *)
Theorem convert_single_layout (env : Env) (image_path : string) (img : Frame)
    (cols rows : Z) (cells : list byte) (output_path : string) (w : World) :
  1 <= cols <= 500 -> 1 <= rows <= 500 ->
  image_open image_path = Some img ->
  quantize img cols rows = Some cells ->
  open_ok env output_path = true ->
  exists w' data,
    convert_image_to_ascii_bin image_open quantize env image_path cols rows
                               output_path w = (Ok tt, w')
    /\ files w' !! output_path = Some data
    /\ Z.of_nat (length data) = 4 + cols * rows
    /\ Struct.unpack_H data 0 = Some cols
    /\ Struct.unpack_H data 2 = Some rows
    /\ take 4 data = [Struct.byte_of_Z (cols mod 256);
                      Struct.byte_of_Z (cols / 256);
                      Struct.byte_of_Z (rows mod 256);
                      Struct.byte_of_Z (rows / 256)]
    /\ drop 4 data = cells.
Proof.
  intros Hc Hr Himg Hq Hopen.
  rewrite convert_image_eq, Himg, Hq. simpl. rewrite Hopen.
  assert (Hp : Struct.pack_HH cols rows
               = Some [Struct.byte_of_Z (cols mod 256);
                       Struct.byte_of_Z (cols / 256);
                       Struct.byte_of_Z (rows mod 256);
                       Struct.byte_of_Z (rows / 256)]).
  { unfold Struct.pack_HH.
    rewrite !StructFacts.pack_H_Some by lia. reflexivity. }
  rewrite Hp.
  pose proof (StructFacts.pack_HH_Some _ _ _ Hp) as (_ & _ & _ & U0 & U2).
  eexists _, _. split; [reflexivity|]. simpl.
  rewrite lookup_insert_eq. split; [reflexivity|].
  repeat split.
  - rewrite <- (quantize_length _ _ _ _ Hq). simpl. lia.
  - exact (StructFacts.unpack_H_app_l _ cells _ _ U0).
  - exact (StructFacts.unpack_H_app_l _ cells _ _ U2).
Qed.

(** C3.  Given more than 65535 frames, [convert_sequence_to_blob] does not
    fail on the count: it writes the first 65535 frames in order, the
    header's frameCount field is 65535, and the file has
    [8 + 65535*cols*rows] bytes. *)
Theorem convert_sequence_truncates (env : Env) (frames : list Frame)
    (cols rows fps : Z) (output_path : string) (w : World) :
  65535 < Z.of_nat (length frames) ->
  all_decode quantize (take (Z.to_nat 65535) frames) cols rows = true ->
  0 <= cols <= 65535 -> 0 <= rows <= 65535 -> 0 <= fps <= 65535 ->
  open_ok env output_path = true ->
  exists w' data grids,
    convert_sequence_to_blob quantize env frames cols rows fps output_path w
    = (Ok tt, w')
    /\ files w' !! output_path = Some data
    /\ mapM (fun img => quantize img cols rows)
            (take (Z.to_nat 65535) frames) = Some grids
    /\ Z.of_nat (length grids) = 65535
    /\ drop 8 data = concat grids
    /\ Struct.unpack_H data 4 = Some 65535
    /\ Z.of_nat (length data) = 8 + 65535 * cols * rows.
Proof.
  intros Hn Hdec Hc Hr Hf Hopen.
  rewrite convert_sequence_eq. simpl. rewrite Hopen.
  replace (Z.min 65535 (Z.of_nat (length frames))) with 65535 by lia.
  destruct (StructFacts.pack_HHHH_ok cols rows 65535 fps) as [hdr Hp];
    try lia.
  rewrite Hp, Hdec.
  pose proof (StructFacts.pack_HHHH_Some _ _ _ _ _ Hp)
    as (_ & _ & _ & _ & L & _ & _ & U4 & _).
  pose proof (decoded_prefix_length _ _ _ Hdec) as [L1 L2].
  rewrite length_take in L1, L2.
  eexists _, _, _. split; [reflexivity|]. simpl.
  rewrite lookup_insert_eq. split; [reflexivity|].
  split; [by apply all_decode_prefix|].
  repeat split.
  - lia.
  - rewrite drop_app_length'; [done|by rewrite L].
  - by apply StructFacts.unpack_H_app_l.
  - rewrite length_app, Nat2Z.inj_add, L2, L. lia.
Qed.

End BlobLayout.

(** ** The model run on the small decoder *)

Module FixtureFacts.
Import Fixture.

Lemma quantize_length (img : ToyFrame) (cols rows : Z) (cells : list byte) :
  quantize img cols rows = Some cells ->
  Z.of_nat (length cells) = cols * rows.
Proof.
  destruct img as [v|]; simpl; [|discriminate].
  destruct ((0 <? cols) && (0 <? rows)) eqn:E; [|discriminate].
  intros [= <-]. apply andb_true_iff in E as [E1 E2].
  apply Z.ltb_lt in E1, E2. rewrite length_replicate. nia.
Qed.

(** The specification's example: a solid mid-gray image at cols=4, rows=2
    gives [04 00 02 00] and eight bytes of value 128. *)
Example single_mid_gray :
  files (snd (convert_image_to_ascii_bin (env_ok "20240101_120000")
                "gray.png" 4 2 "ascii_data.blob" empty_world))
    !! "ascii_data.blob"
  = Some ([Byte.x04; Byte.x00; Byte.x02; Byte.x00]
            ++ replicate 8 Byte.x80).
Proof. vm_compute. reflexivity. Qed.

End FixtureFacts.

Lemma convert_single_layout_witness :
  exists w' data,
    Fixture.convert_image_to_ascii_bin (Fixture.env_ok "20240101_120000")
      "gray.png" 4 2 "ascii_data.blob" Fixture.empty_world = (Ok tt, w')
    /\ files w' !! "ascii_data.blob" = Some data
    /\ Z.of_nat (length data) = 4 + 4 * 2
    /\ Struct.unpack_H data 0 = Some 4
    /\ Struct.unpack_H data 2 = Some 2
    /\ take 4 data = [Byte.x04; Byte.x00; Byte.x02; Byte.x00]
    /\ drop 4 data = replicate 8 Byte.x80.
Proof.
  apply (convert_single_layout Fixture.image_open Fixture.quantize
           FixtureFacts.quantize_length (Fixture.env_ok "20240101_120000")
           "gray.png" (Fixture.Solid Byte.x80) 4 2 (replicate 8 Byte.x80)
           "ascii_data.blob" Fixture.empty_world);
    [lia | lia | reflexivity | reflexivity | reflexivity].
Defined.

Lemma convert_sequence_truncates_witness :
  exists w' data grids,
    Fixture.convert_sequence_to_blob (Fixture.env_ok "20240101_120000")
      (replicate (Z.to_nat 65536) (Fixture.Solid Byte.x01)) 1 1 24
      "ascii_sequence.blob" Fixture.empty_world = (Ok tt, w')
    /\ files w' !! "ascii_sequence.blob" = Some data
    /\ mapM (fun img => Fixture.quantize img 1 1)
            (take (Z.to_nat 65535)
                  (replicate (Z.to_nat 65536) (Fixture.Solid Byte.x01)))
       = Some grids
    /\ Z.of_nat (length grids) = 65535
    /\ drop 8 data = concat grids
    /\ Struct.unpack_H data 4 = Some 65535
    /\ Z.of_nat (length data) = 8 + 65535 * 1 * 1.
Proof.
  apply (convert_sequence_truncates Fixture.quantize
           FixtureFacts.quantize_length (Fixture.env_ok "20240101_120000")
           (replicate (Z.to_nat 65536) (Fixture.Solid Byte.x01)) 1 1 24
           "ascii_sequence.blob" Fixture.empty_world);
    [rewrite length_replicate; lia | vm_compute; reflexivity
    | lia | lia | lia | reflexivity].
Defined.

(** ** Failures: what is left at the destination *)

Section Outcomes.

Context {Frame : Type}.
Variable image_open : string -> option Frame.
Variable quantize : Frame -> Z -> Z -> option (list byte).

Hypothesis quantize_length :
  forall img cols rows cells,
    quantize img cols rows = Some cells ->
    Z.of_nat (length cells) = cols * rows.




End Outcomes.



(** ** Backup failures *)

(** C6.  Whatever fails while the vault directory is created, listed or
    copied into, [backup_blob] returns normally and leaves every regular
    file as it was; the conversion that follows ends the same way and
    leaves the same files whether the backup worked or not. *)
Theorem backup_failures_swallowed {Frame : Type}
    (image_open : string -> option Frame)
    (quantize : Frame -> Z -> Z -> option (list byte))
    (env : Env) (timestamp : string) (mk ls cp : bool)
    (image_path : string) (frames : list Frame) (cols rows fps : Z)
    (output_path : string) (w : World) :
  let env' := mkEnv timestamp mk ls cp (open_ok env) in
  (fst (backup_blob env' output_path w) = Ok tt
   /\ files (snd (backup_blob env' output_path w)) = files w)
  /\ (fst (convert_image_to_ascii_bin image_open quantize env' image_path
             cols rows output_path w)
      = fst (convert_image_to_ascii_bin image_open quantize env image_path
               cols rows output_path w)
      /\ files (snd (convert_image_to_ascii_bin image_open quantize env'
                       image_path cols rows output_path w))
         = files (snd (convert_image_to_ascii_bin image_open quantize env
                         image_path cols rows output_path w)))
  /\ (fst (convert_sequence_to_blob quantize env' frames cols rows fps
             output_path w)
      = fst (convert_sequence_to_blob quantize env frames cols rows fps
               output_path w)
      /\ files (snd (convert_sequence_to_blob quantize env' frames cols rows
                       fps output_path w))
         = files (snd (convert_sequence_to_blob quantize env frames cols rows
                         fps output_path w))).
Proof.
  intros env'. split; [apply backup_blob_ok|]. split.
  - rewrite !convert_image_eq.
    destruct (image_open image_path) as [img|]; [|done].
    destruct (quantize img cols rows) as [cells|]; [|done].
    simpl. destruct (open_ok env output_path); [|done].
    destruct (Struct.pack_HH cols rows); done.
  - rewrite !convert_sequence_eq. simpl.
    destruct (open_ok env output_path); [|done].
    destruct (Struct.pack_HHHH _ _ _ _); done.
Qed.

(** The same on a run: the vault on read-only storage, the blob is written
    all the same. *)
Example backup_on_readonly_vault :
  Fixture.convert_image_to_ascii_bin
    (Fixture.env_readonly_vault "20240101_120000") "gray.png" 1 1 "out.blob"
    (mkWorld {["out.blob" := [Byte.x00]]} ∅)
  = (Ok tt,
     mkWorld {["out.blob" :=
                 [Byte.x01; Byte.x00; Byte.x01; Byte.x00; Byte.x80]]} ∅).
Proof. vm_compute. reflexivity. Qed.

(** ** The text preview *)

Module PreviewFacts.
Import App.

Lemma ramp_length : String.length ASCII_RAMP = 10%nat.
Proof. reflexivity. Qed.

Lemma ramp_index_eq (v : Z) : ramp_index v = v * 9 / 255.
Proof. reflexivity. Qed.

Lemma ramp_index_range (v : Z) : 0 <= v <= 255 -> 0 <= ramp_index v <= 9.
Proof.
  intros Hv. rewrite ramp_index_eq. split.
  - apply Z.div_pos; lia.
  - apply Z.div_le_upper_bound; lia.
Qed.

Lemma string_get_elem (s : string) (n : nat) (c : ascii) :
  String.get n s = Some c -> c ∈ String.list_ascii_of_string s.
Proof.
  revert n. induction s as [|a s IH]; intros n; simpl; [discriminate|].
  destruct n as [|n].
  - intros [= ->]. apply list_elem_of_here.
  - intros H. apply list_elem_of_further. eauto.
Qed.

Lemma string_get_is_Some (s : string) (n : nat) :
  (n < String.length s)%nat -> is_Some (String.get n s).
Proof.
  revert n. induction s as [|a s IH]; intros n; simpl; [lia|].
  destruct n as [|n]; [eauto|]. intros H. apply IH. lia.
Qed.

Lemma ramp_char_elem (idx : Z) (c : ascii) :
  ramp_char idx = Some c -> c ∈ String.list_ascii_of_string ASCII_RAMP.
Proof.
  unfold ramp_char.
  destruct ((0 <=? idx) && (idx <? _)); [apply string_get_elem|].
  destruct ((- _ <=? idx) && (idx <? 0)); [apply string_get_elem|].
  discriminate.
Qed.

Lemma ramp_char_is_Some (idx : Z) : 0 <= idx <= 9 -> is_Some (ramp_char idx).
Proof.
  intros H. unfold ramp_char. rewrite ramp_length.
  replace ((0 <=? idx) && (idx <? Z.of_nat 10)) with true
    by (symmetry; apply andb_true_iff; split;
        [apply Z.leb_le | apply Z.ltb_lt]; lia).
  apply string_get_is_Some. rewrite ramp_length. lia.
Qed.

Lemma ramp_has_no_newline :
  Forall (fun c => Ascii.eqb c "010"%char = false)
         (String.list_ascii_of_string ASCII_RAMP).
Proof. repeat constructor. Qed.

Lemma length_string_of_list (l : list ascii) :
  String.length (String.string_of_list_ascii l) = length l.
Proof. induction l; simpl; congruence. Qed.

Lemma string_app_nil_l (s : string) : "" +:+ s = s.
Proof. reflexivity. Qed.

Lemma string_app_cons (a : ascii) (s t : string) :
  String a s +:+ t = String a (s +:+ t).
Proof. reflexivity. Qed.

Lemma string_app_empty (s : string) : s +:+ "" = s.
Proof.
  induction s as [|a s IH]; [done|]. by rewrite string_app_cons, IH.
Qed.

Lemma split_lines_cons (text : string) :
  exists line lines, Blob.split_lines text = line :: lines.
Proof.
  induction text as [|a rest (line & lines & IH)]; simpl; [eauto|].
  rewrite IH. destruct (Ascii.eqb a "010"%char); eauto.
Qed.

(** Splitting what [join] built gives the lines back. *)
Lemma split_lines_app (s rest : string) :
  Blob.no_newline s ->
  Blob.split_lines (s +:+ rest)
  = match Blob.split_lines rest with
    | [] => []
    | line :: lines => (s +:+ line) :: lines
    end.
Proof.
  unfold Blob.no_newline. induction s as [|a s IH]; intros H.
  - rewrite string_app_nil_l. by destruct (Blob.split_lines rest).
  - simpl in H. inversion H as [|? ? Ha Hs]; subst.
    rewrite string_app_cons. cbn [Blob.split_lines].
    rewrite (IH Hs).
    destruct (split_lines_cons rest) as (line & lines & ->).
    by rewrite Ha, string_app_cons.
Qed.

Lemma split_lines_join (lines : list string) :
  lines <> [] -> Forall Blob.no_newline lines ->
  Blob.split_lines (String.concat newline lines) = lines.
Proof.
  induction lines as [|line rest IH]; [done|]. intros _ H.
  inversion H as [|? ? Hl Hr]; subst.
  destruct rest as [|line' rest'].
  - simpl. rewrite <- (string_app_empty line) at 1.
    rewrite split_lines_app by done. simpl. by rewrite string_app_empty.
  - change (String.concat newline (line :: line' :: rest'))
      with (line +:+ newline +:+ String.concat newline (line' :: rest')).
    rewrite split_lines_app by done.
    change (newline +:+ String.concat newline (line' :: rest'))
      with (String "010"%char (String.concat newline (line' :: rest'))).
    cbn [Blob.split_lines]. rewrite IH by done.
    rewrite Ascii.eqb_refl. by rewrite string_app_empty.
Qed.

End PreviewFacts.

(** C9.  The preview character index for a brightness [v] in [0,255] is
    [v * (rampLength - 1) / 255] with integer division, and it is monotonic
    non-decreasing: for [a <= b], [index a <= index b]. *)
Theorem ramp_index_monotone (a b : Z) :
  0 <= a -> a <= b -> b <= 255 ->
  App.ramp_index a
  = a * (Z.of_nat (String.length App.ASCII_RAMP) - 1) / 255
  /\ App.ramp_index b
     = b * (Z.of_nat (String.length App.ASCII_RAMP) - 1) / 255
  /\ App.ramp_index a <= App.ramp_index b.
Proof.
  intros Ha Hab Hb. split; [reflexivity|]. split; [reflexivity|].
  rewrite !PreviewFacts.ramp_index_eq.
  apply Z.div_le_mono; lia.
Qed.

Lemma ramp_index_monotone_witness :
  App.ramp_index 100
  = 100 * (Z.of_nat (String.length App.ASCII_RAMP) - 1) / 255
  /\ App.ramp_index 200
     = 200 * (Z.of_nat (String.length App.ASCII_RAMP) - 1) / 255
  /\ App.ramp_index 100 <= App.ramp_index 200.
Proof. apply (ramp_index_monotone 100 200); lia. Defined.

Example ramp_index_values :
  map App.ramp_index [0; 28; 29; 127; 128; 254; 255] = [0; 0; 1; 4; 4; 8; 9].
Proof. reflexivity. Qed.

Section PreviewShape.

Context {Frame : Type}.
Variable quantize : Frame -> Z -> Z -> option (list byte).

Hypothesis quantize_length :
  forall img cols rows cells,
    quantize img cols rows = Some cells ->
    Z.of_nat (length cells) = cols * rows.

Lemma mapM_Forall {A B} (f : A -> option B) (P : B -> Prop) (l : list A) :
  (forall x, x ∈ l -> exists y, f x = Some y /\ P y) ->
  exists k, mapM f l = Some k /\ length k = length l /\ Forall P k.
Proof.
  induction l as [|x l IH]; intros H.
  - exists []. by repeat split.
  - destruct (H x) as (y & Hy & Py); [apply list_elem_of_here|].
    destruct IH as (k & Hk & Lk & Pk).
    { intros x' Hx'. apply H. by apply list_elem_of_further. }
    exists (y :: k). simpl. rewrite Hy. simpl. rewrite Hk. simpl.
    repeat split; [by rewrite Lk | by constructor].
Qed.

Lemma clamp_range (n : Z) : 1 <= clamp n <= 500.
Proof. unfold clamp. lia. Qed.

Lemma preview_char_ok (pixels : list byte) (cols rows row col : Z) :
  Z.of_nat (length pixels) = cols * rows ->
  0 <= row < rows -> 0 <= col < cols ->
  exists c, preview_char pixels cols row col = Some c
            /\ c ∈ String.list_ascii_of_string App.ASCII_RAMP.
Proof.
  intros Hl Hr Hc. unfold preview_char.
  destruct (lookup_lt_is_Some_2 pixels (Z.to_nat (row * cols + col)))
    as [b Hb]; [nia|].
  rewrite Hb. simpl.
  destruct (PreviewFacts.ramp_char_is_Some
              (App.ramp_index (Struct.Z_of_byte b))) as [c Hc'].
  { apply PreviewFacts.ramp_index_range.
    pose proof (StructFacts.Z_of_byte_range b). lia. }
  exists c. split; [done|]. by eapply PreviewFacts.ramp_char_elem.
Qed.

Lemma list_of_string_of_list (l : list ascii) :
  String.list_ascii_of_string (String.string_of_list_ascii l) = l.
Proof. induction l; simpl; congruence. Qed.

Lemma preview_line_ok (pixels : list byte) (cols rows row : Z) :
  Z.of_nat (length pixels) = cols * rows ->
  0 <= cols -> 0 <= row < rows ->
  exists line, preview_line pixels cols row = Some line
               /\ App.ramp_line cols line.
Proof.
  intros Hl Hc Hr. unfold preview_line.
  destruct (mapM_Forall (preview_char pixels cols row)
              (fun c => c ∈ String.list_ascii_of_string App.ASCII_RAMP)
              (seqZ 0 cols)) as (chars & Hm & Lm & Pm).
  { intros col Hcol. apply elem_of_seqZ in Hcol.
    eapply preview_char_ok; eauto; lia. }
  rewrite Hm. simpl. eexists. split; [reflexivity|]. split.
  - rewrite PreviewFacts.length_string_of_list, Lm, length_seqZ. lia.
  - by rewrite list_of_string_of_list.
Qed.

Lemma ramp_line_no_newline (cols : Z) (line : string) :
  App.ramp_line cols line -> Blob.no_newline line.
Proof.
  intros [_ H]. unfold Blob.no_newline.
  eapply Forall_impl; [exact H|]. intros c Hc. simpl in Hc.
  pose proof PreviewFacts.ramp_has_no_newline as R.
  rewrite Forall_forall in R. by apply R.
Qed.

(** C10.  For an uploaded image that decodes and any requested grid size,
    the preview text is exactly [rows] lines of exactly [cols] characters,
    [cols] and [rows] being the requested values clamped to [1,500]; every
    character comes from the 10-character ramp, whose index stays within
    [0,9] for every brightness in [0,255], so that indexing the ramp never
    fails. *)
Theorem preview_shape (img : Frame) (cols rows : Z) (pixels : list byte) :
  quantize img (clamp cols) (clamp rows) = Some pixels ->
  (exists lines,
     preview quantize (Some img) cols rows
     = JsonPreview (String.concat App.newline lines) (clamp cols) (clamp rows)
     /\ Blob.split_lines (String.concat App.newline lines) = lines
     /\ Z.of_nat (length lines) = clamp rows
     /\ Forall (App.ramp_line (clamp cols)) lines)
  /\ 1 <= clamp cols <= 500 /\ 1 <= clamp rows <= 500
  /\ String.length App.ASCII_RAMP = 10%nat
  /\ (forall v, 0 <= v <= 255 ->
                0 <= App.ramp_index v <= 9
                /\ is_Some (App.ramp_char (App.ramp_index v))).
Proof.
  intros Hq.
  pose proof (clamp_range cols) as Hc. pose proof (clamp_range rows) as Hr.
  pose proof (quantize_length _ _ _ _ Hq) as Hl.
  repeat split; try lia.
  - destruct (mapM_Forall (preview_line pixels (clamp cols))
                (App.ramp_line (clamp cols)) (seqZ 0 (clamp rows)))
      as (lines & Hm & Lm & Pm).
    { intros row Hrow. apply elem_of_seqZ in Hrow.
      eapply preview_line_ok; eauto; lia. }
    exists lines. unfold preview. rewrite Hq. unfold preview_lines.
    rewrite Hm. split; [reflexivity|].
    assert (Ln : Z.of_nat (length lines) = clamp rows).
    { rewrite Lm, length_seqZ. lia. }
    split; [|by split].
    apply PreviewFacts.split_lines_join.
    + destruct lines; [simpl in Ln; lia|done].
    + eapply Forall_impl; [exact Pm|]. apply ramp_line_no_newline.
  - by apply PreviewFacts.ramp_index_range.
  - by apply PreviewFacts.ramp_index_range.
  - apply PreviewFacts.ramp_char_is_Some.
    by apply PreviewFacts.ramp_index_range.
Qed.

End PreviewShape.

Lemma preview_shape_witness :
  (exists lines,
     Fixture.preview (Some (Fixture.Solid Byte.x80)) 3 0
     = JsonPreview (String.concat App.newline lines) (clamp 3) (clamp 0)
     /\ Blob.split_lines (String.concat App.newline lines) = lines
     /\ Z.of_nat (length lines) = clamp 0
     /\ Forall (App.ramp_line (clamp 3)) lines)
  /\ 1 <= clamp 3 <= 500 /\ 1 <= clamp 0 <= 500
  /\ String.length App.ASCII_RAMP = 10%nat
  /\ (forall v, 0 <= v <= 255 ->
                0 <= App.ramp_index v <= 9
                /\ is_Some (App.ramp_char (App.ramp_index v))).
Proof.
  apply (preview_shape Fixture.quantize FixtureFacts.quantize_length
           (Fixture.Solid Byte.x80) 3 0 (replicate 3 Byte.x80)).
  reflexivity.
Defined.

(** A solid mid-gray upload at 3 by 2 previews as two lines of [=]; a
    requested size of 0 or 9000 is clamped. *)
Example preview_mid_gray :
  Fixture.preview (Some (Fixture.Solid Byte.x80)) 3 2
  = JsonPreview ("===" +:+ App.newline +:+ "===") 3 2.
Proof. vm_compute. reflexivity. Qed.

Example preview_clamped :
  Fixture.preview (Some (Fixture.Solid Byte.xff)) 2 0 = JsonPreview "@@" 2 1.
Proof. vm_compute. reflexivity. Qed.

(** ** The output path *)

Module PathFacts.
Import PyStr.

Lemma str_drop_app (a b : string) : str_drop (String.length a) (a +:+ b) = b.
Proof. induction a as [|c a IH]; [done|]. exact IH. Qed.

Lemma length_app (a b : string) :
  String.length (a +:+ b) = (String.length a + String.length b)%nat.
Proof.
  induction a as [|c a IH]; [done|].
  rewrite PreviewFacts.string_app_cons. simpl. by rewrite IH.
Qed.


Lemma startswith_app (a b : string) : startswith (a +:+ b) a = true.
Proof.
  unfold startswith. induction a as [|c a IH].
  - by destruct b.
  - rewrite PreviewFacts.string_app_cons. simpl.
    destruct (ascii_dec c c) as [_|N]; [exact IH|done].
Qed.

End PathFacts.


Example ensure_blob_examples :
  map ensure_blob ["anim.bin"; "anim"; "dir.v2/anim"; "anim.blob"; "a.b.c"]
  = ["anim.blob"; "anim.blob"; "dir.v2/anim.blob"; "anim.blob"; "a.b.blob"].
Proof. reflexivity. Qed.

(** C8 at a failing input.  [python ascii_preprocess.py gray.png 1 1
    out.bin] succeeds and writes the blob at [out.bin]; the path is not
    coerced, and nothing is written at [out.blob]. *)
Theorem single_output_not_coerced :
  PyStr.endswith "out.bin" ".blob" = false
  /\ Fixture.main_single (Fixture.env_ok "20240101_120000") "gray.png" 1 1
       "out.bin" Fixture.empty_world
     = (Ok tt,
        mkWorld {["out.bin" :=
                    [Byte.x01; Byte.x00; Byte.x01; Byte.x00; Byte.x80]]} ∅)
  /\ files (snd (Fixture.main_single (Fixture.env_ok "20240101_120000")
                   "gray.png" 1 1 "out.bin" Fixture.empty_world))
       !! "out.blob" = None.
Proof. vm_compute. repeat split; reflexivity. Qed.

(** ** The playback rate *)

Module RoundFacts.

(** [round] gives a nearest integer. *)
Lemma round_nearest (x : Q) :
  (inject_Z (PyNum.round x) - (1 # 2) <= x
   /\ x <= inject_Z (PyNum.round x) + (1 # 2))%Q.
Proof.
  unfold PyNum.round.
  pose proof (Qfloor_le x) as H1. pose proof (Qlt_floor x) as H2.
  rewrite inject_Z_plus in H2. change (inject_Z 1) with 1%Q in H2.
  destruct (Qcompare_spec (x - inject_Z (Qfloor x)) (1 # 2)) as [E|E|E].
  - destruct (Z.even (Qfloor x)); rewrite ?inject_Z_plus;
      change (inject_Z 1) with 1%Q; split; lra.
  - split; lra.
  - rewrite inject_Z_plus. change (inject_Z 1) with 1%Q. split; lra.
Qed.

Lemma round_Z (z : Z) : PyNum.round (inject_Z z) = z.
Proof.
  unfold PyNum.round. rewrite Qfloor_Z.
  destruct (Qcompare_spec (inject_Z z - inject_Z z) (1 # 2)) as [E|E|E];
    try lra; reflexivity.
Qed.

Example round_examples :
  map PyNum.round [5 # 2; 7 # 2; 2997 # 100; 1 # 2; 24 # 1; 1 # 5]
  = [2; 4; 30; 0; 24; 0].
Proof. reflexivity. Qed.

End RoundFacts.

Section Fps.

Context {Frame : Type}.
Variable image_open : string -> option Frame.
Variable quantize : Frame -> Z -> Z -> option (list byte).
Variable dir_entries : string -> option (list string).
Variable is_file : string -> bool.
Variable HAS_CV2 : bool.
Variable video_open : string -> option (list Frame * Q).

Lemma truthy_Some (f : Z) : f <> 0 -> truthy (Some f) = true.
Proof. intros H. simpl. by apply negb_true_iff, Z.eqb_neq. Qed.

(** A successful sequence conversion leaves a blob whose header carries
    the [fps] it was given. *)
Lemma convert_sequence_fps (env : Env) (frames : list Frame)
    (cols rows fps : Z) (output_path : string) (w w' : World) :
  convert_sequence_to_blob quantize env frames cols rows fps output_path w
  = (Ok tt, w') ->
  exists data, files w' !! output_path = Some data
               /\ Struct.unpack_H data 6 = Some fps.
Proof.
  rewrite convert_sequence_eq. simpl.
  destruct (open_ok env output_path); [|discriminate].
  destruct (Struct.pack_HHHH _ _ _ _) as [header|] eqn:Hp; [|discriminate].
  destruct (all_decode quantize _ cols rows); [|discriminate].
  intros [= <-]. simpl. rewrite lookup_insert_eq. eexists. split; [done|].
  apply StructFacts.pack_HHHH_Some in Hp
    as (_ & _ & _ & _ & _ & _ & _ & _ & U6).
  by apply StructFacts.unpack_H_app_l.
Qed.

Lemma open_all_state (paths : list string) (w : World) :
  snd (open_all image_open paths w) = w.
Proof.
  induction paths as [|p rest IH]; simpl; [done|].
  unfold bind at 1. destruct (image_open p) as [img|]; simpl; [|done].
  unfold bind at 1. destruct (open_all image_open rest w) as [[imgs|e] w1].
  - simpl in *. by subst.
  - simpl in *. by subst.
Qed.

Lemma gather_state (folder_path : string) (w : World) :
  snd (gather_frames_from_folder image_open dir_entries folder_path w) = w.
Proof.
  unfold gather_frames_from_folder.
  destruct (gather_files folder_path _); [done|].
  apply open_all_state.
Qed.

Lemma extract_state (video_path : string) (max_frames : option Z)
    (w : World) :
  snd (extract_frames_from_video HAS_CV2 video_open video_path max_frames w)
  = w.
Proof.
  unfold extract_frames_from_video.
  destruct HAS_CV2; simpl; [|done].
  by destruct (video_open video_path) as [[stream src]|].
Qed.

(** What a successful [main] amounts to: one sequence conversion, at the
    coerced output path, with the rate chosen for the kind of input. *)
Lemma main_Ok (env : Env) (args : Args) (w w' : World) :
  main image_open quantize dir_entries is_file HAS_CV2 video_open env args w
  = (Ok tt, w') ->
  exists frames fps,
    convert_sequence_to_blob quantize env frames (a_cols args) (a_rows args)
      fps (ensure_blob (a_output args)) w = (Ok tt, w')
    /\ ((is_Some (dir_entries (a_input args))
         /\ fps = folder_fps (a_fps args))
        \/ (dir_entries (a_input args) = None
            /\ exists stream source_fps,
                 video_open (a_input args) = Some (stream, source_fps)
                 /\ fps = video_fps (a_fps args) source_fps)).
Proof.
  unfold main. unfold bind at 1.
  case_bool_decide as Hdir.
  - unfold bind at 1.
    pose proof (gather_state (a_input args) w) as Hs.
    destruct (gather_frames_from_folder _ _ _ w) as [[frames|e] w1];
      simpl in Hs; subst w1; [|discriminate].
    simpl.
    destruct (if truthy (a_max_frames args) then _ else frames)
      as [|img rest] eqn:Hf; [discriminate|].
    intros H. eexists _, _. split; [exact H|]. by left.
  - assert (Hnone : dir_entries (a_input args) = None).
    { destruct (dir_entries (a_input args)); [|done].
      exfalso. apply Hdir. eauto. }
    destruct (is_file (a_input args)); [|discriminate].
    case_bool_decide as Hext; [|discriminate].
    unfold bind at 1.
    pose proof (extract_state (a_input args) (a_max_frames args) w) as Hs.
    unfold extract_frames_from_video in *.
    destruct HAS_CV2; simpl in *; [|discriminate].
    destruct (video_open (a_input args)) as [[stream src]|] eqn:Hv;
      simpl in *; [|discriminate].
    destruct (read_frames stream (a_max_frames args) 0) as [|img rest];
      [discriminate|].
    intros Hconv. eexists _, _. split; [exact Hconv|]. right. eauto.
Qed.

(** What a served sequence blob amounts to. *)
Lemma convert_video_SendFile (env : Env) (input_path output_path : string)
    (cols rows fps max_frames : Z) (w w' : World) (data : list byte) :
  convert_video quantize HAS_CV2 video_open env input_path output_path
    cols rows fps max_frames w = (Ok (SendFile data), w') ->
  exists stream source_fps,
    video_open input_path = Some (stream, source_fps)
    /\ Struct.unpack_H data 6 = Some (actual_fps fps source_fps).
Proof.
  unfold convert_video, except_Exception.
  destruct HAS_CV2; simpl; [|discriminate].
  unfold bind at 1.
  unfold app_extract_frames_from_video, extract_frames_from_video. simpl.
  destruct (video_open input_path) as [[stream src]|]; simpl; [|discriminate].
  destruct (read_frames stream _ 0) as [|img rest]; [discriminate|].
  unfold bind.
  destruct (convert_sequence_to_blob quantize env (img :: rest) (clamp cols)
              (clamp rows) (actual_fps fps src) output_path w)
    as [[[]|e] w1] eqn:Hconv.
  - apply convert_sequence_fps in Hconv as (d & Hd & U6).
    unfold send_file. rewrite Hd. intros [= <- <-]. eauto.
  - destruct e; discriminate.
Qed.

(** C4, as the code has it.  On the command line an explicit fps other
    than 0 is the header's fps whenever the conversion succeeds; with no
    fps, or with 0, a directory gets 24 and a video gets its reported
    rate rounded to the nearest integer, at least 1.  In the web service
    a positive fps is the header's fps of every blob served, and any
    other value gives the video's rounded rate, at least 1. *)
Theorem fps_resolution (env : Env) (args : Args) (w w' : World)
    (env2 : Env) (input_path output_path : string)
    (cols rows fps max_frames : Z) (w2 w2' : World) (data2 : list byte) :
  (main image_open quantize dir_entries is_file HAS_CV2 video_open env args w
   = (Ok tt, w') ->
   exists data header_fps,
     files w' !! ensure_blob (a_output args) = Some data
     /\ Struct.unpack_H data 6 = Some header_fps
     /\ (forall f, a_fps args = Some f -> f <> 0 -> header_fps = f)
     /\ (a_fps args = None \/ a_fps args = Some 0 ->
         (is_Some (dir_entries (a_input args)) -> header_fps = 24)
         /\ (forall stream source_fps,
               dir_entries (a_input args) = None ->
               video_open (a_input args) = Some (stream, source_fps) ->
               header_fps = Z.max 1 (PyNum.round source_fps))))
  /\ (convert_video quantize HAS_CV2 video_open env2 input_path output_path
        cols rows fps max_frames w2 = (Ok (SendFile data2), w2') ->
      exists stream source_fps,
        video_open input_path = Some (stream, source_fps)
        /\ Struct.unpack_H data2 6
           = Some (if 0 <? fps then fps
                   else Z.max 1 (PyNum.round source_fps))).
Proof.
  split.
  - intros Hmain.
    apply main_Ok in Hmain as (frames & hfps & Hconv & Hkind).
    apply convert_sequence_fps in Hconv as (data & Hd & U6).
    exists data, hfps. split; [done|]. split; [done|]. split.
    + intros f Hf Hne.
      destruct Hkind as [[_ ->]|(_ & stream & src & _ & ->)];
        unfold folder_fps, video_fps; rewrite Hf, truthy_Some by done; done.
    + intros Hnone. split.
      * intros Hdir.
        destruct Hkind as [[_ ->]|(Hn & _)].
        -- unfold folder_fps. by destruct Hnone as [-> | ->].
        -- rewrite Hn in Hdir. by destruct Hdir.
      * intros stream src Hn Hv.
        destruct Hkind as [[Hdir _]|(_ & stream' & src' & Hv' & ->)].
        -- rewrite Hn in Hdir. by destruct Hdir.
        -- rewrite Hv in Hv'. injection Hv' as <- <-.
           unfold video_fps. by destruct Hnone as [-> | ->].
  - apply convert_video_SendFile.
Qed.

End Fps.

(** A rate of 0 given on the command line does not reach the header: the
    directory default 24 is written, and for a video the rounded source
    rate (29.97 gives 30).  In the web service a negative rate is replaced
    the same way.  So an explicit value does not always override. *)
Lemma explicit_fps_zero_ignored :
  (Fixture.main (Fixture.env_ok "20240101_120000")
     (mkArgs "frames" 1 1 (Some 0) None "out.blob") Fixture.empty_world
   = (Ok tt,
      mkWorld {["out.blob" :=
                  [Byte.x01; Byte.x00; Byte.x01; Byte.x00;
                   Byte.x03; Byte.x00; Byte.x18; Byte.x00;
                   Byte.x0a; Byte.x0b; Byte.x0c]]} ∅)
   /\ Struct.unpack_H
        [Byte.x01; Byte.x00; Byte.x01; Byte.x00;
         Byte.x03; Byte.x00; Byte.x18; Byte.x00;
         Byte.x0a; Byte.x0b; Byte.x0c] 6 = Some 24
   /\ 24 <> 0)
  /\ (Fixture.main (Fixture.env_ok "20240101_120000")
        (mkArgs "clip.mp4" 1 1 (Some 0) None "out.blob") Fixture.empty_world
      = (Ok tt,
         mkWorld {["out.blob" :=
                     [Byte.x01; Byte.x00; Byte.x01; Byte.x00;
                      Byte.x03; Byte.x00; Byte.x1e; Byte.x00;
                      Byte.x01; Byte.x02; Byte.x03]]} ∅)
      /\ Struct.unpack_H
           [Byte.x01; Byte.x00; Byte.x01; Byte.x00;
            Byte.x03; Byte.x00; Byte.x1e; Byte.x00;
            Byte.x01; Byte.x02; Byte.x03] 6 = Some 30
      /\ 30 <> 0)
  /\ (fst (Fixture.convert_video (Fixture.env_ok "20240101_120000")
             "clip.mp4" "tmp/ascii_sequence.blob" 1 1 (-5) 0
             Fixture.empty_world)
      = Ok (SendFile [Byte.x01; Byte.x00; Byte.x01; Byte.x00;
                      Byte.x03; Byte.x00; Byte.x1e; Byte.x00;
                      Byte.x01; Byte.x02; Byte.x03])
      /\ 30 <> -5).
Proof. vm_compute. repeat split; try reflexivity; discriminate. Qed.

Lemma fps_resolution_witness :
  (exists data header_fps,
     files (snd (Fixture.main (Fixture.env_ok "20240101_120000")
                   (mkArgs "clip.mp4" 1 1 (Some 12) None "out.bin")
                   Fixture.empty_world))
       !! ensure_blob "out.bin" = Some data
     /\ Struct.unpack_H data 6 = Some header_fps
     /\ (forall f, Some 12 = Some f -> f <> 0 -> header_fps = f)
     /\ (Some 12 = None \/ Some 12 = Some 0 ->
         (is_Some (Fixture.dir_entries "clip.mp4") -> header_fps = 24)
         /\ (forall stream source_fps,
               Fixture.dir_entries "clip.mp4" = None ->
               Fixture.video_open "clip.mp4" = Some (stream, source_fps) ->
               header_fps = Z.max 1 (PyNum.round source_fps))))
  /\ (exists stream source_fps,
        Fixture.video_open "clip.mp4" = Some (stream, source_fps)
        /\ Struct.unpack_H
             [Byte.x01; Byte.x00; Byte.x01; Byte.x00;
              Byte.x03; Byte.x00; Byte.x0c; Byte.x00;
              Byte.x01; Byte.x02; Byte.x03] 6
           = Some (if 0 <? 12 then 12
                   else Z.max 1 (PyNum.round source_fps))).
Proof.
  destruct (fps_resolution Fixture.image_open Fixture.quantize
              Fixture.dir_entries Fixture.is_file true Fixture.video_open
              (Fixture.env_ok "20240101_120000")
              (mkArgs "clip.mp4" 1 1 (Some 12) None "out.bin")
              Fixture.empty_world
              (snd (Fixture.main (Fixture.env_ok "20240101_120000")
                      (mkArgs "clip.mp4" 1 1 (Some 12) None "out.bin")
                      Fixture.empty_world))
              (Fixture.env_ok "20240101_120000")
              "clip.mp4" "tmp/ascii_sequence.blob" 1 1 12 0
              Fixture.empty_world
              (snd (Fixture.convert_video (Fixture.env_ok "20240101_120000")
                      "clip.mp4" "tmp/ascii_sequence.blob" 1 1 12 0
                      Fixture.empty_world))
              [Byte.x01; Byte.x00; Byte.x01; Byte.x00;
               Byte.x03; Byte.x00; Byte.x0c; Byte.x00;
               Byte.x01; Byte.x02; Byte.x03]) as [Hcli Happ].
  split.
  - apply Hcli. vm_compute. reflexivity.
  - apply Happ. vm_compute. reflexivity.
Defined.

(** ** The folder source *)

Module GlobFacts.
Import Glob.








End GlobFacts.

(** ** The files the folder source collects *)

Module FolderFacts.



Lemma string_app_assoc (a b c : string) : (a +:+ b) +:+ c = a +:+ b +:+ c.
Proof.
  induction a as [|x a IH]; [done|].
  by rewrite !PreviewFacts.string_app_cons, IH.
Qed.







End FolderFacts.





(** The frames of the folder b.png, a.png, c.png come out as a, b, c. *)
Example folder_frames_in_order :
  Fixture.gather_frames_from_folder "frames" Fixture.empty_world
  = (Ok [Fixture.Solid Byte.x0a; Fixture.Solid Byte.x0b;
         Fixture.Solid Byte.x0c], Fixture.empty_world).
Proof. vm_compute. reflexivity. Qed.

(** ** Backup names *)

Module NameFacts.

(** The decimal digits of a number hold no underscore. *)
Lemma digits_no_underscore (d : Decimal.uint) :
  Forall (fun c => c <> "_"%char)
         (String.list_ascii_of_string (NilEmpty.string_of_uint d)).
Proof. induction d; simpl; constructor; done. Qed.

(** A run of characters other than the underscore, followed by an
    underscore, is determined by the whole string. *)
Lemma split_at_underscore (d1 d2 r1 r2 : string) :
  Forall (fun c => c <> "_"%char) (String.list_ascii_of_string d1) ->
  Forall (fun c => c <> "_"%char) (String.list_ascii_of_string d2) ->
  d1 +:+ String "_"%char r1 = d2 +:+ String "_"%char r2 ->
  d1 = d2.
Proof.
  revert d2. induction d1 as [|a d1 IH]; intros [|b d2] H1 H2 E; simpl in *.
  - done.
  - rewrite PreviewFacts.string_app_cons, PreviewFacts.string_app_nil_l in E.
    injection E as <- _. by inversion H2.
  - rewrite PreviewFacts.string_app_cons, PreviewFacts.string_app_nil_l in E.
    injection E as -> _. by inversion H1.
  - rewrite !PreviewFacts.string_app_cons in E. injection E as -> E.
    inversion H1; inversion H2; subst. f_equal. eauto.
Qed.

Lemma of_uint_pad_zeros (k : nat) (d : Decimal.uint) :
  N.of_uint (PyStr.pad_zeros k d) = N.of_uint d.
Proof. induction k as [|k IH]; [done|]. exact IH. Qed.

Lemma format_03d_inj (m n : N) :
  PyStr.format_03d m = PyStr.format_03d n -> m = n.
Proof.
  unfold PyStr.format_03d. intros E.
  assert (E' : Some (PyStr.pad_zeros (3 - Decimal.nb_digits (N.to_uint m))
                       (N.to_uint m))
               = Some (PyStr.pad_zeros (3 - Decimal.nb_digits (N.to_uint n))
                         (N.to_uint n))).
  { rewrite <- !NilEmpty.usu. by rewrite E. }
  injection E' as E'.
  apply (f_equal N.of_uint) in E'.
  by rewrite !of_uint_pad_zeros, !DecimalN.Unsigned.of_to in E'.
Qed.

Lemma backup_name_prefix (base : string) (k : Z) (ts : string) :
  PyStr.startswith (backup_name base k ts) (base +:+ "_") = true.
Proof.
  unfold backup_name. rewrite <- FolderFacts.string_app_assoc.
  apply PathFacts.startswith_app.
Qed.

(** Two backup names of one base with different sequence numbers
    differ, whatever the timestamps. *)
Lemma backup_name_inj (base : string) (j k : Z) (ts ts' : string) :
  0 <= j -> 0 <= k ->
  backup_name base j ts = backup_name base k ts' -> j = k.
Proof.
  intros Hj Hk. unfold backup_name. intros E.
  apply (inj (String.append base)) in E.
  change ("_" +:+ ?x) with (String "_"%char x) in E.
  injection E as E.
  apply split_at_underscore in E; try apply digits_no_underscore.
  apply format_03d_inj in E. lia.
Qed.

End NameFacts.

(** ** Successive conversions *)

Section Vault.

Context {Frame : Type}.
Variable image_open : string -> option Frame.
Variable quantize : Frame -> Z -> Z -> option (list byte).

Lemma filter_length_Permutation {A} (f : A -> bool) (l1 l2 : list A) :
  l1 ≡ₚ l2 -> length (List.filter f l1) = length (List.filter f l2).
Proof.
  induction 1 as [|x l1 l2 _ IH|x y l|l1 l2 l3 _ IH1 _ IH2]; simpl.
  - done.
  - destruct (f x); simpl; by rewrite IH.
  - by destruct (f x), (f y).
  - by rewrite IH1.
Qed.

(** A fresh vault file whose name starts with ["<base>_"] raises the
    count by one. *)
Lemma backup_count_insert (base name : string) (c : list byte)
    (v : gmap string (list byte)) :
  v !! name = None ->
  PyStr.startswith name (base +:+ "_") = true ->
  backup_count base (<[name := c]> v) = S (backup_count base v).
Proof.
  intros Hfresh Hpre. unfold backup_count, existing_backups.
  rewrite (filter_length_Permutation _ _ (name :: (map_to_list v).*1)).
  - simpl. by rewrite Hpre.
  - by rewrite map_to_list_insert.
Qed.

Lemma backup_count_none (base : string) (v : gmap string (list byte)) :
  (forall name, is_Some (v !! name) ->
                PyStr.startswith name (base +:+ "_") = false) ->
  backup_count base v = 0%nat.
Proof.
  intros H. unfold backup_count, existing_backups.
  assert (Hall : forall n, In n (map_to_list v).*1 ->
                   PyStr.startswith n (base +:+ "_") = false).
  { intros n Hn. apply H. apply list_elem_of_In in Hn.
    apply list_elem_of_fmap in Hn as [[n' c] [-> Hn]].
    apply elem_of_map_to_list in Hn. eauto. }
  induction ((map_to_list v).*1) as [|n l IH]; [done|]. simpl.
  rewrite Hall by (by left). apply IH. intros n' Hn'. apply Hall. by right.
Qed.

(** One conversion that works: the blob is replaced, and what
    [backup_blob] did to the vault stays. *)
Lemma run_job_ok (env : Env) (job : Job Frame) (output_path : string) (w : World) :
  job_ok image_open quantize output_path (env, job) = true ->
  exists blob,
    run_job image_open quantize env job output_path w
    = (Ok tt,
       mkWorld (<[output_path := blob]> (files w))
               (vault (snd (backup_blob env output_path w)))).
Proof.
  unfold job_ok, writable. simpl. intros H.
  apply andb_true_iff in H as [Hw Hd].
  apply andb_true_iff in Hw as [_ Hopen].
  destruct job as [image_path cols rows|frames cols rows fps]; simpl in *.
  - rewrite convert_image_eq.
    destruct (image_open image_path) as [img|]; [|done].
    apply andb_true_iff in Hd as [Hd Hr]. apply andb_true_iff in Hd as [Hq Hc].
    apply bool_decide_eq_true in Hq as [cells ->]. simpl. rewrite Hopen.
    apply StructFacts.u16_ok_spec in Hc, Hr.
    destruct (StructFacts.pack_HH_ok cols rows Hc Hr) as [hdr ->]. eauto.
  - rewrite convert_sequence_eq. simpl. rewrite Hopen.
    apply andb_true_iff in Hd as [Hd Hf]. apply andb_true_iff in Hd as [Hd Hr].
    apply andb_true_iff in Hd as [Hq Hc].
    apply StructFacts.u16_ok_spec in Hc, Hr, Hf.
    destruct (StructFacts.pack_HHHH_ok cols rows
                (Z.min 65535 (Z.of_nat (length frames))) fps) as [hdr ->];
      try lia.
    unfold all_decode. rewrite Hq. eauto.
Qed.

Lemma run_jobs_app (l1 l2 : list (Env * Job Frame)) (output_path : string)
    (w : World) :
  run_jobs image_open quantize (l1 ++ l2) output_path w
  = match run_jobs image_open quantize l1 output_path w with
    | (Ok _, w1) => run_jobs image_open quantize l2 output_path w1
    | (Raise e, w1) => (Raise e, w1)
    end.
Proof.
  revert w. induction l1 as [|[env job] l1 IH]; intros w; simpl; [done|].
  unfold bind.
  destruct (run_job image_open quantize env job output_path w) as [[[]|e] w1];
    [apply IH|done].
Qed.

Lemma run_job_first (env : Env) (job : Job Frame) (output_path : string)
    (w : World) :
  files w !! output_path = None ->
  job_ok image_open quantize output_path (env, job) = true ->
  exists blob,
    run_job image_open quantize env job output_path w
    = (Ok tt, mkWorld (<[output_path := blob]> (files w)) (vault w)).
Proof.
  intros Hnone Hok. destruct (run_job_ok env job output_path w Hok) as [b ->].
  rewrite backup_blob_absent by done. eauto.
Qed.

Lemma run_job_next (env : Env) (job : Job Frame) (output_path : string)
    (w : World) (cur : list byte) :
  files w !! output_path = Some cur ->
  job_ok image_open quantize output_path (env, job) = true ->
  exists blob,
    run_job image_open quantize env job output_path w
    = (Ok tt,
       mkWorld (<[output_path := blob]> (files w))
         (<[backup_name (backup_base output_path)
              (Z.of_nat (backup_count (backup_base output_path) (vault w)) + 1)
              (now env) := cur]> (vault w))).
Proof.
  intros Hcur Hok. destruct (run_job_ok env job output_path w Hok) as [b ->].
  unfold job_ok, writable in Hok. simpl in Hok.
  apply andb_true_iff in Hok as [Hw _].
  apply andb_true_iff in Hw as [Hw _]. apply andb_true_iff in Hw as [Hw Hc].
  apply andb_true_iff in Hw as [Hm Hl].
  rewrite (backup_blob_present env output_path w cur) by done. eauto.
Qed.

(** What holds after any number of successful conversions to one path,
    starting with no file there and no backup of its base name. *)
Lemma successive_invariant (jobs : list (Env * Job Frame))
    (output_path : string) (w : World) :
  files w !! output_path = None ->
  (forall name, is_Some (vault w !! name) ->
     PyStr.startswith name (backup_base output_path +:+ "_") = false) ->
  forallb (job_ok image_open quantize output_path) jobs = true ->
  exists w',
    run_jobs image_open quantize jobs output_path w = (Ok tt, w')
    /\ (jobs = [] -> w' = w)
    /\ (jobs <> [] -> is_Some (files w' !! output_path))
    /\ backup_count (backup_base output_path) (vault w')
       = (length jobs - 1)%nat
    /\ numbered_upto (backup_base output_path) (length jobs - 1) (vault w')
    /\ (forall k env job,
          (1 <= k)%nat -> jobs !! k = Some (env, job) ->
          exists wk cur,
            run_jobs image_open quantize (take k jobs) output_path w
            = (Ok tt, wk)
            /\ files wk !! output_path = Some cur
            /\ backup_count (backup_base output_path) (vault wk)
               = (k - 1)%nat
            /\ vault w' !! backup_name (backup_base output_path)
                             (Z.of_nat k) (now env) = Some cur).
Proof.
  intros Hnone Hempty.
  induction jobs as [|[env job] l IH] using rev_ind; intros Hok.
  - exists w. simpl. split; [done|]. split; [done|]. split; [done|].
    split; [by apply backup_count_none|]. split.
    + intros name Hs Hp. rewrite Hempty in Hp by done. discriminate.
    + intros k env job _ Hk. by rewrite lookup_nil in Hk.
  - rewrite forallb_app in Hok. apply andb_true_iff in Hok as [Hl Hx].
    simpl in Hx. rewrite andb_true_r in Hx.
    destruct (IH Hl) as (w1 & Hrun & Hnil & Hsome & Hcount & Hnum & Hhist).
    rewrite run_jobs_app, Hrun. simpl. unfold bind.
    rewrite length_app. simpl.
    destruct (decide (l = [])) as [->|Hne].
    + rewrite (Hnil eq_refl) in *.
      destruct (run_job_first env job output_path w Hnone Hx) as [b ->].
      eexists. split; [reflexivity|]. simpl.
      split; [intros ?; discriminate|].
      split; [intros _; rewrite lookup_insert_eq; eauto|].
      split; [done|]. split; [done|].
      intros k env' job' Hk Hlook. destruct k as [|k]; [lia|done].
    + destruct (Hsome Hne) as [cur Hcur].
      assert (Hlen : (1 <= length l)%nat).
      { destruct l; [done|simpl; lia]. }
      destruct (run_job_next env job output_path w1 cur Hcur Hx) as [b ->].
      rewrite Hcount.
      replace (Z.of_nat (length l - 1) + 1) with (Z.of_nat (length l)) by lia.
      set (base := backup_base output_path) in *.
      set (name := backup_name base (Z.of_nat (length l)) (now env)).
      assert (Hfresh : vault w1 !! name = None).
      { destruct (vault w1 !! name) as [c|] eqn:E; [|done]. exfalso.
        destruct (Hnum name) as (j & ts & Hj & Hname); [eauto| |].
        - apply NameFacts.backup_name_prefix.
        - apply NameFacts.backup_name_inj in Hname; lia. }
      eexists. split; [reflexivity|]. simpl.
      split; [intros E; apply app_eq_nil in E as [_ E]; discriminate|].
      split; [intros _; rewrite lookup_insert_eq; eauto|].
      split.
      { rewrite backup_count_insert.
        - rewrite Hcount. lia.
        - done.
        - apply NameFacts.backup_name_prefix. }
      split.
      { intros name' Hs Hp.
        destruct (decide (name = name')) as [<-|Hdiff].
        - exists (Z.of_nat (length l)), (now env). split; [lia|done].
        - rewrite lookup_insert_ne in Hs by done.
          destruct (Hnum name' Hs Hp) as (j & ts & Hj & ->).
          exists j, ts. split; [lia|done]. }
      intros k env' job' Hk Hlook.
      destruct (decide (k < length l)%nat) as [Hlt|Hge].
      * rewrite lookup_app_l in Hlook by done.
        destruct (Hhist k env' job' Hk Hlook) as (wk & c & Hrk & Hck & Hnk & Hvk).
        exists wk, c. rewrite take_app_le by lia.
        split; [done|]. split; [done|]. split; [done|].
        rewrite lookup_insert_ne; [done|].
        intros E. apply NameFacts.backup_name_inj in E; lia.
      * assert (k = length l) as ->.
        { apply lookup_lt_Some in Hlook. rewrite length_app in Hlook.
          simpl in Hlook. lia. }
        rewrite list_lookup_middle in Hlook by done.
        injection Hlook as <- <-.
        exists w1, cur. rewrite take_app_length.
        split; [done|]. split; [done|]. split; [done|].
        apply lookup_insert_eq.
Qed.

(** C5, as the code has it.  [N >= 1] successful conversions to one
    output path on writable storage, starting with no file at that path
    and no vault file whose name starts with ["<baseName>_"], leave exactly
    [N-1] such vault files.  They carry the sequence numbers 1 to [N-1]:
    the conversion number [k+1] finds [k-1] of them, so that it computes
    [1 + (k-1) = k], and stores the blob it is about to overwrite under
    the name with number [k], where it still is at the end. *)
Theorem successive_backups (jobs : list (Env * Job Frame))
    (output_path : string) (w : World) :
  files w !! output_path = None ->
  (forall name, is_Some (vault w !! name) ->
     PyStr.startswith name (backup_base output_path +:+ "_") = false) ->
  forallb (job_ok image_open quantize output_path) jobs = true ->
  jobs <> [] ->
  exists w',
    run_jobs image_open quantize jobs output_path w = (Ok tt, w')
    /\ Z.of_nat (backup_count (backup_base output_path) (vault w'))
       = Z.of_nat (length jobs) - 1
    /\ numbered_upto (backup_base output_path) (length jobs - 1) (vault w')
    /\ (forall k env job,
          (1 <= k)%nat -> jobs !! k = Some (env, job) ->
          exists wk cur,
            run_jobs image_open quantize (take k jobs) output_path w
            = (Ok tt, wk)
            /\ files wk !! output_path = Some cur
            /\ Z.of_nat k
               = Z.of_nat (backup_count (backup_base output_path) (vault wk))
                 + 1
            /\ vault w' !! backup_name (backup_base output_path)
                             (Z.of_nat k) (now env) = Some cur).
Proof.
  intros Hnone Hempty Hok Hne.
  destruct (successive_invariant jobs output_path w Hnone Hempty Hok)
    as (w' & Hrun & _ & _ & Hcount & Hnum & Hhist).
  exists w'. split; [done|]. split.
  { rewrite Hcount. destruct jobs; [done|simpl; lia]. }
  split; [done|].
  intros k env job Hk Hlook.
  destruct (Hhist k env job Hk Hlook) as (wk & cur & Hrk & Hck & Hnk & Hvk).
  exists wk, cur. rewrite Hnk. repeat split; try done. lia.
Qed.

End Vault.

Lemma successive_backups_witness :
  exists w',
    Fixture.run_jobs
      [(Fixture.env_ok "20240101_120000", SingleJob "gray.png" 1 1);
       (Fixture.env_ok "20240101_120500",
        SequenceJob [Fixture.Solid Byte.x01] 1 1 24);
       (Fixture.env_ok "20240101_121000", SingleJob "gray.png" 2 1)]
      "art/out.blob" Fixture.empty_world = (Ok tt, w')
    /\ Z.of_nat (backup_count (backup_base "art/out.blob") (vault w'))
       = Z.of_nat
           (length
              [(Fixture.env_ok "20240101_120000", SingleJob "gray.png" 1 1);
               (Fixture.env_ok "20240101_120500",
                SequenceJob [Fixture.Solid Byte.x01] 1 1 24);
               (Fixture.env_ok "20240101_121000", SingleJob "gray.png" 2 1)])
         - 1
    /\ numbered_upto (backup_base "art/out.blob")
         (length
            [(Fixture.env_ok "20240101_120000", SingleJob "gray.png" 1 1);
             (Fixture.env_ok "20240101_120500",
              SequenceJob [Fixture.Solid Byte.x01] 1 1 24);
             (Fixture.env_ok "20240101_121000", SingleJob "gray.png" 2 1)]
          - 1) (vault w')
    /\ (forall k env job,
          (1 <= k)%nat ->
          [(Fixture.env_ok "20240101_120000", SingleJob "gray.png" 1 1);
           (Fixture.env_ok "20240101_120500",
            SequenceJob [Fixture.Solid Byte.x01] 1 1 24);
           (Fixture.env_ok "20240101_121000", SingleJob "gray.png" 2 1)]
            !! k = Some (env, job) ->
          exists wk cur,
            Fixture.run_jobs
              (take k
                 [(Fixture.env_ok "20240101_120000",
                   SingleJob "gray.png" 1 1);
                  (Fixture.env_ok "20240101_120500",
                   SequenceJob [Fixture.Solid Byte.x01] 1 1 24);
                  (Fixture.env_ok "20240101_121000",
                   SingleJob "gray.png" 2 1)])
              "art/out.blob" Fixture.empty_world = (Ok tt, wk)
            /\ files wk !! "art/out.blob" = Some cur
            /\ Z.of_nat k
               = Z.of_nat (backup_count (backup_base "art/out.blob")
                             (vault wk)) + 1
            /\ vault w' !! backup_name (backup_base "art/out.blob")
                             (Z.of_nat k) (now env) = Some cur).
Proof.
  apply (successive_backups Fixture.image_open Fixture.quantize
           [(Fixture.env_ok "20240101_120000", SingleJob "gray.png" 1 1);
            (Fixture.env_ok "20240101_120500",
             SequenceJob [Fixture.Solid Byte.x01] 1 1 24);
            (Fixture.env_ok "20240101_121000", SingleJob "gray.png" 2 1)]
           "art/out.blob" Fixture.empty_world).
  - reflexivity.
  - intros name [c Hc]. discriminate Hc.
  - vm_compute. reflexivity.
  - discriminate.
Defined.

(** The vault after those three conversions: the first blob under 001,
    the second under 002. *)
Example three_conversions_vault :
  vault (snd (Fixture.run_jobs
                [(Fixture.env_ok "20240101_120000", SingleJob "gray.png" 1 1);
                 (Fixture.env_ok "20240101_120500",
                  SequenceJob [Fixture.Solid Byte.x01] 1 1 24);
                 (Fixture.env_ok "20240101_121000", SingleJob "gray.png" 2 1)]
                "art/out.blob" Fixture.empty_world))
    !! "out_001_20240101_120500.blob"
  = Some [Byte.x01; Byte.x00; Byte.x01; Byte.x00; Byte.x80]
  /\ vault (snd (Fixture.run_jobs
                   [(Fixture.env_ok "20240101_120000",
                     SingleJob "gray.png" 1 1);
                    (Fixture.env_ok "20240101_120500",
                     SequenceJob [Fixture.Solid Byte.x01] 1 1 24);
                    (Fixture.env_ok "20240101_121000",
                     SingleJob "gray.png" 2 1)]
                   "art/out.blob" Fixture.empty_world))
       !! "out_002_20240101_121000.blob"
     = Some [Byte.x01; Byte.x00; Byte.x01; Byte.x00;
             Byte.x01; Byte.x00; Byte.x18; Byte.x00; Byte.x01].
Proof. vm_compute. split; reflexivity. Qed.

(** C5, as the specification words it, fails on the code when a blob is
    already at the output path: the vault holds no backup of that base
    name, and two conversions leave two backups, numbered 001 and 002,
    not one. *)
Lemma existing_blob_backed_up_first :
  backup_count "out" (vault (mkWorld {["out.blob" := [Byte.x00]]} ∅)) = 0%nat
  /\ fst (Fixture.run_jobs
            [(Fixture.env_ok "20240101_120000", SingleJob "gray.png" 1 1);
             (Fixture.env_ok "20240101_120500", SingleJob "gray.png" 2 1)]
            "out.blob" (mkWorld {["out.blob" := [Byte.x00]]} ∅)) = Ok tt
  /\ vault (snd (Fixture.run_jobs
                   [(Fixture.env_ok "20240101_120000",
                     SingleJob "gray.png" 1 1);
                    (Fixture.env_ok "20240101_120500",
                     SingleJob "gray.png" 2 1)]
                   "out.blob" (mkWorld {["out.blob" := [Byte.x00]]} ∅)))
       !! "out_001_20240101_120000.blob" = Some [Byte.x00]
  /\ vault (snd (Fixture.run_jobs
                   [(Fixture.env_ok "20240101_120000",
                     SingleJob "gray.png" 1 1);
                    (Fixture.env_ok "20240101_120500",
                     SingleJob "gray.png" 2 1)]
                   "out.blob" (mkWorld {["out.blob" := [Byte.x00]]} ∅)))
       !! "out_002_20240101_120500.blob"
     = Some [Byte.x01; Byte.x00; Byte.x01; Byte.x00; Byte.x80]
  /\ backup_count "out"
       (vault (snd (Fixture.run_jobs
                      [(Fixture.env_ok "20240101_120000",
                        SingleJob "gray.png" 1 1);
                       (Fixture.env_ok "20240101_120500",
                        SingleJob "gray.png" 2 1)]
                      "out.blob" (mkWorld {["out.blob" := [Byte.x00]]} ∅))))
     = 2%nat
  /\ (2 <> 2 - 1)%nat.
Proof. vm_compute. repeat split; try reflexivity. discriminate. Qed.

(* ===================================================================== *)
(** * Further properties of the converters *)
(* ===================================================================== *)

Section ConverterReach.

Context {Frame : Type}.
Variable image_open : string -> option Frame.
Variable quantize : Frame -> Z -> Z -> option (list byte).



Lemma convert_image_other (env : Env) (image_path : string)
    (cols rows : Z) (output_path other : string) (w : World) :
  other <> output_path ->
  files (snd (convert_image_to_ascii_bin image_open quantize env image_path
                cols rows output_path w)) !! other = files w !! other.
Proof.
  intros Hne. rewrite convert_image_eq.
  destruct (image_open image_path) as [img|]; [|done].
  destruct (quantize img cols rows) as [cells|]; [|done]. simpl.
  destruct (open_ok env output_path); [|done].
  destruct (Struct.pack_HH cols rows); simpl;
    by rewrite lookup_insert_ne.
Qed.






End ConverterReach.

Section SequenceLayout.

Context {Frame : Type}.
Variable quantize : Frame -> Z -> Z -> option (list byte).

Hypothesis quantize_length :
  forall img cols rows cells,
    quantize img cols rows = Some cells ->
    Z.of_nat (length cells) = cols * rows.

Lemma block_of_concat {A} (L : nat) (blocks : list (list A)) (k : nat)
    (block : list A) :
  Forall (fun b => length b = L) blocks ->
  blocks !! k = Some block ->
  take L (drop (k * L) (concat blocks)) = block.
Proof.
  intros Hall. revert k.
  induction Hall as [|b rest Hb _ IH]; intros k Hk; [done|].
  destruct k as [|k].
  - injection Hk as <-. simpl. by rewrite drop_0, take_app_length'.
  - simpl in Hk. cbn [concat]. rewrite drop_app_ge by lia.
    replace (S k * L - length b)%nat with (k * L)%nat by lia. by apply IH.
Qed.

Lemma decoded_prefix_blocks (frames : list Frame) (cols rows : Z) :
  Forall (fun b => length b = Z.to_nat (cols * rows))
         (decoded_prefix quantize frames cols rows).
Proof.
  induction frames as [|img rest IH]; simpl; [constructor|].
  destruct (quantize img cols rows) as [g|] eqn:Hg; [|constructor].
  constructor; [|done]. apply quantize_length in Hg. lia.
Qed.

(** X5.  A sequence blob written with success has the header fields cols,
    rows, the number of frames kept (all of them up to 65535) and fps, and
    then the frames in order: frame number [k], counted from 0, is the
    block of [cols*rows] bytes that starts at offset [8 + k*cols*rows]. *)
Theorem sequence_blob_layout (env : Env) (frames : list Frame)
    (cols rows fps : Z) (output_path : string) (w w' : World) :
  convert_sequence_to_blob quantize env frames cols rows fps output_path w
  = (Ok tt, w') ->
  exists data grids,
    files w' !! output_path = Some data
    /\ mapM (fun img => quantize img cols rows)
            (take (Z.to_nat 65535) frames) = Some grids
    /\ Struct.unpack_H data 0 = Some cols
    /\ Struct.unpack_H data 2 = Some rows
    /\ Struct.unpack_H data 4
       = Some (Z.min 65535 (Z.of_nat (length frames)))
    /\ Struct.unpack_H data 6 = Some fps
    /\ Z.of_nat (length grids) = Z.min 65535 (Z.of_nat (length frames))
    /\ Z.of_nat (length data)
       = 8 + Z.min 65535 (Z.of_nat (length frames)) * (cols * rows)
    /\ (forall (k : nat) grid,
          grids !! k = Some grid ->
          take (Z.to_nat (cols * rows))
               (drop (8 + k * Z.to_nat (cols * rows)) data) = grid).
Proof.
  rewrite convert_sequence_eq. simpl.
  destruct (open_ok env output_path); [|discriminate].
  destruct (Struct.pack_HHHH _ _ _ _) as [hdr|] eqn:Hp; [|discriminate].
  destruct (all_decode quantize _ cols rows) eqn:Hd; [|discriminate].
  intros [= <-]. cbn [files]. rewrite lookup_insert_eq.
  apply StructFacts.pack_HHHH_Some in Hp
    as (_ & _ & _ & _ & L & U0 & U2 & U4 & U6).
  destruct (decoded_prefix_length quantize quantize_length _ _ _ Hd)
    as [L1 L2].
  rewrite length_take in L1, L2.
  eexists _, _. split; [reflexivity|].
  split; [by apply all_decode_prefix|].
  repeat split; try by apply StructFacts.unpack_H_app_l.
  - lia.
  - rewrite length_app. lia.
  - intros k grid Hk.
    match goal with
    | |- context [drop (S (S (S (S (S (S (S (S ?n)))))))) _] =>
        replace (S (S (S (S (S (S (S (S n))))))))
          with (length hdr + n)%nat by lia
    end.
    rewrite drop_app_add'; [|done].
    apply block_of_concat; [apply decoded_prefix_blocks|done].
Qed.

End SequenceLayout.

(* ===================================================================== *)
(** * Further properties of the backup vault *)
(* ===================================================================== *)

Module PathMore.
Import PyStr PyStrMore.

Lemma rfind_from_app (c : ascii) (a b : string) (i last : Z) :
  rfind_from c (a +:+ b) i last
  = rfind_from c b (i + Z.of_nat (String.length a)) (rfind_from c a i last).
Proof.
  revert i last. induction a as [|x a IH]; intros i last.
  - rewrite PreviewFacts.string_app_nil_l. simpl. f_equal. lia.
  - rewrite PreviewFacts.string_app_cons. cbn [rfind_from String.length].
    rewrite IH. f_equal. lia.
Qed.

Lemma rfind_from_absent (c : ascii) (s : string) (i last : Z) :
  ~ has_char c s -> rfind_from c s i last = last.
Proof.
  unfold has_char. revert i last.
  induction s as [|x s IH]; intros i last H; simpl in *; [done|].
  destruct (Ascii.eqb x c) eqn:E.
  - apply Ascii.eqb_eq in E. tauto.
  - apply IH. tauto.
Qed.

(** The last component of [dir/name] is [name]. *)
Lemma basename_after_slash (dir name : string) :
  ~ has_char "/" name -> basename (dir +:+ "/" +:+ name) = name.
Proof.
  intros H. unfold basename, rfind.
  rewrite rfind_from_app.
  change ("/" +:+ name) with (String "/"%char name).
  cbn [rfind_from]. rewrite Ascii.eqb_refl.
  rewrite rfind_from_absent by done.
  replace (Z.to_nat (0 + Z.of_nat (String.length dir) + 1))
    with (String.length (dir +:+ "/")).
  - replace (dir +:+ String "/"%char name) with ((dir +:+ "/") +:+ name)
      by (by rewrite FolderFacts.string_app_assoc).
    apply PathFacts.str_drop_app.
  - rewrite PathFacts.length_app. simpl. lia.
Qed.

Lemma basename_no_slash (name : string) :
  ~ has_char "/" name -> basename name = name.
Proof.
  intros H. unfold basename, rfind. by rewrite rfind_from_absent.
Qed.

End PathMore.

Section VaultMore.

(** X6.  When the destination does not exist, or the vault directory
    cannot be created or listed, [backup_blob] changes nothing at all. *)
Theorem backup_skipped_changes_nothing (env : Env) (output_path : string)
    (w : World) :
  files w !! output_path = None
  \/ makedirs_ok env = false \/ listdir_ok env = false ->
  backup_blob env output_path w = (Ok tt, w).
Proof.
  intros H. unfold backup_blob, bind, OS.path_exists. simpl.
  destruct (files w !! output_path) as [cur|] eqn:Hcur.
  - rewrite bool_decide_true by eauto. simpl.
    unfold try_except_pass, bind, OS.makedirs, OS.listdir, ret, raise.
    destruct H as [H|[H|H]]; [done| |].
    + by rewrite H.
    + destruct (makedirs_ok env); simpl; [|done]. by rewrite H.
  - rewrite bool_decide_false; [done|]. by intros [? ?].
Qed.

(** X7.  On working storage, with the vault files of a base name numbered
    1 to [k] and [k] of them present, a backup stores the current blob
    under number [k+1] in a file that did not exist, keeps every earlier
    vault file as it was, and leaves the vault numbered 1 to [k+1]. *)
Theorem backup_keeps_earlier_backups (env : Env) (output_path : string)
    (w : World) (cur : list byte) (k : nat) :
  files w !! output_path = Some cur ->
  makedirs_ok env = true -> listdir_ok env = true -> copy_ok env = true ->
  backup_count (backup_base output_path) (vault w) = k ->
  numbered_upto (backup_base output_path) k (vault w) ->
  exists w',
    backup_blob env output_path w = (Ok tt, w')
    /\ vault w !! backup_name (backup_base output_path) (Z.of_nat k + 1)
                   (now env) = None
    /\ vault w' !! backup_name (backup_base output_path) (Z.of_nat k + 1)
                    (now env) = Some cur
    /\ (forall name c, vault w !! name = Some c -> vault w' !! name = Some c)
    /\ backup_count (backup_base output_path) (vault w') = S k
    /\ numbered_upto (backup_base output_path) (S k) (vault w').
Proof.
  intros Hcur Hm Hl Hc Hk Hnum.
  rewrite (backup_blob_present env output_path w cur) by done.
  fold (backup_count (backup_base output_path) (vault w)).
  rewrite Hk. set (base := backup_base output_path) in *.
  set (name := backup_name base (Z.of_nat k + 1) (now env)).
  assert (Hfresh : vault w !! name = None).
  { destruct (vault w !! name) as [c|] eqn:E; [|done]. exfalso.
    destruct (Hnum name) as (j & ts & Hj & Hname); [eauto| |].
    - apply NameFacts.backup_name_prefix.
    - apply NameFacts.backup_name_inj in Hname; lia. }
  eexists. split; [reflexivity|]. simpl.
  split; [done|]. split; [apply lookup_insert_eq|]. split; [|split].
  - intros n c Hn. rewrite lookup_insert_ne; [done|]. congruence.
  - rewrite backup_count_insert; [by rewrite Hk|done|].
    apply NameFacts.backup_name_prefix.
  - intros n Hs Hp. destruct (decide (name = n)) as [<-|Hdiff].
    + exists (Z.of_nat k + 1), (now env). split; [lia|done].
    + rewrite lookup_insert_ne in Hs by done.
      destruct (Hnum n Hs Hp) as (j & ts & Hj & ->).
      exists j, ts. split; [lia|done].
Qed.

(** X8.  The vault name of a backup depends on the file name of the
    output path only, not on its directory: outputs of the same name in
    different directories share one series of backups. *)
Theorem backup_base_ignores_directory (dir name : string) :
  ~ PyStrMore.has_char "/" name ->
  backup_base (dir +:+ "/" +:+ name) = backup_base name.
Proof.
  intros H. unfold backup_base.
  by rewrite PathMore.basename_after_slash, PathMore.basename_no_slash.
Qed.

End VaultMore.

(* ===================================================================== *)
(** * Further properties of the video source and the web service *)
(* ===================================================================== *)

Section VideoMore.

Context {Frame : Type}.
Variable image_open : string -> option Frame.
Variable quantize : Frame -> Z -> Z -> option (list byte).
Variable HAS_CV2 : bool.
Variable video_open : string -> option (list Frame * Q).

Lemma read_frames_take (stream : list Frame) (m c : Z) :
  0 <= c -> c < m ->
  read_frames stream (Some m) c = take (Z.to_nat (m - c)) stream.
Proof.
  revert c. induction stream as [|frame rest IH]; intros c Hc Hm.
  - by rewrite take_nil.
  - cbn [read_frames truthy default from_option]. change (id m) with m.
    replace (m =? 0) with false by (symmetry; apply Z.eqb_neq; lia).
    cbn [negb andb].
    replace (Z.to_nat (m - c)) with (S (Z.to_nat (m - (c + 1)))) by lia.
    cbn [take]. f_equal.
    destruct (m <=? c + 1) eqn:E.
    + apply Z.leb_le in E. replace (m - (c + 1)) with 0 by lia.
      by destruct rest.
    + apply Z.leb_gt in E. apply IH; lia.
Qed.

Lemma read_frames_uncapped (stream : list Frame) (max_frames : option Z)
    (c : Z) :
  truthy max_frames = false -> read_frames stream max_frames c = stream.
Proof.
  intros H. revert c. induction stream as [|frame rest IH]; intros c; [done|].
  cbn [read_frames]. rewrite H. cbn [andb]. by rewrite IH.
Qed.

Lemma read_frames_negative (stream : list Frame) (m c : Z) :
  m < 0 -> 0 <= c -> read_frames stream (Some m) c = take 1 stream.
Proof.
  intros Hm Hc. destruct stream as [|frame rest]; [done|].
  cbn [read_frames truthy default from_option]. change (id m) with m.
  replace (m =? 0) with false by (symmetry; apply Z.eqb_neq; lia).
  replace (m <=? c + 1) with true by (symmetry; apply Z.leb_le; lia).
  done.
Qed.

(** X9.  The frame cap of [extract_frames_from_video]: with no cap, or a
    cap of 0, every frame of the stream is returned; a positive cap [m]
    returns the first [m] frames (all of them when the stream is shorter);
    a negative cap returns the first frame only. *)
Theorem read_frames_cap (stream : list Frame) (max_frames : option Z) :
  read_frames stream max_frames 0
  = match max_frames with
    | None => stream
    | Some m =>
        if m =? 0 then stream
        else if m <? 0 then take 1 stream
             else take (Z.to_nat m) stream
    end.
Proof.
  destruct max_frames as [m|]; [|by apply read_frames_uncapped].
  destruct (m =? 0) eqn:E0.
  - apply read_frames_uncapped. simpl. by rewrite E0.
  - apply Z.eqb_neq in E0. destruct (m <? 0) eqn:E1.
    + apply Z.ltb_lt in E1. by apply read_frames_negative.
    + apply Z.ltb_ge in E1. rewrite read_frames_take by lia.
      f_equal. lia.
Qed.

(** A successful sequence conversion: the header carries the number of
    frames kept. *)
Lemma convert_sequence_count (env : Env) (frames : list Frame)
    (cols rows fps : Z) (output_path : string) (w w' : World) :
  convert_sequence_to_blob quantize env frames cols rows fps output_path w
  = (Ok tt, w') ->
  exists data,
    files w' !! output_path = Some data
    /\ Struct.unpack_H data 0 = Some cols
    /\ Struct.unpack_H data 2 = Some rows
    /\ Struct.unpack_H data 4
       = Some (Z.min 65535 (Z.of_nat (length frames)))
    /\ Struct.unpack_H data 6 = Some fps.
Proof.
  rewrite convert_sequence_eq. simpl.
  destruct (open_ok env output_path); [|discriminate].
  destruct (Struct.pack_HHHH _ _ _ _) as [header|] eqn:Hp; [|discriminate].
  destruct (all_decode quantize _ cols rows); [|discriminate].
  intros [= <-]. simpl. rewrite lookup_insert_eq. eexists. split; [done|].
  apply StructFacts.pack_HHHH_Some in Hp
    as (_ & _ & _ & _ & _ & U0 & U2 & U4 & U6).
  repeat split; by apply StructFacts.unpack_H_app_l.
Qed.

(** What lies behind a served sequence blob. *)
Lemma convert_video_inv (env : Env) (input_path output_path : string)
    (cols rows fps max_frames : Z) (w w' : World) (data : list byte) :
  convert_video quantize HAS_CV2 video_open env input_path output_path
    cols rows fps max_frames w = (Ok (SendFile data), w') ->
  exists stream source_fps,
    video_open input_path = Some (stream, source_fps)
    /\ read_frames stream
         (if 0 <? max_frames then Some max_frames else None) 0 <> []
    /\ convert_sequence_to_blob quantize env
         (read_frames stream
            (if 0 <? max_frames then Some max_frames else None) 0)
         (clamp cols) (clamp rows) (actual_fps fps source_fps)
         output_path w = (Ok tt, w')
    /\ files w' !! output_path = Some data.
Proof.
  unfold convert_video, except_Exception.
  destruct HAS_CV2; simpl; [|discriminate].
  unfold bind at 1.
  unfold app_extract_frames_from_video, extract_frames_from_video. simpl.
  destruct (video_open input_path) as [[stream src]|]; simpl; [|discriminate].
  destruct (read_frames stream _ 0) as [|img rest] eqn:Hr; [discriminate|].
  unfold bind.
  destruct (convert_sequence_to_blob quantize env (img :: rest) (clamp cols)
              (clamp rows) (actual_fps fps src) output_path w)
    as [[[]|e] w1] eqn:Hconv.
  - unfold send_file.
    destruct (files w1 !! output_path) as [d|] eqn:Hd; [|discriminate].
    intros [= <- <-]. exists stream, src. by rewrite Hr.
  - destruct e; discriminate.
Qed.

(** X10.  A sequence blob served by [convert_video] holds as many frames
    as the upload has, at most the positive [max_frames] asked for, and at
    most 65535; a [max_frames] of 0 or less is no cap.  The header's cols
    and rows are the clamped values. *)
Theorem convert_video_frame_count (env : Env)
    (input_path output_path : string) (cols rows fps max_frames : Z)
    (w w' : World) (data : list byte) :
  convert_video quantize HAS_CV2 video_open env input_path output_path
    cols rows fps max_frames w = (Ok (SendFile data), w') ->
  exists stream source_fps,
    video_open input_path = Some (stream, source_fps)
    /\ stream <> []
    /\ Struct.unpack_H data 0 = Some (clamp cols)
    /\ Struct.unpack_H data 2 = Some (clamp rows)
    /\ Struct.unpack_H data 4
       = Some (Z.min 65535
                 (if 0 <? max_frames
                  then Z.min max_frames (Z.of_nat (length stream))
                  else Z.of_nat (length stream))).
Proof.
  intros H. apply convert_video_inv in H
    as (stream & src & Hv & Hne & Hconv & Hd).
  apply convert_sequence_count in Hconv as (d & Hd' & U0 & U2 & U4 & _).
  rewrite Hd in Hd'. injection Hd' as <-.
  exists stream, src. split; [done|]. split.
  { intros ->. apply Hne. by destruct (0 <? max_frames). }
  split; [done|]. split; [done|]. rewrite U4. do 2 f_equal.
  destruct (0 <? max_frames) eqn:E.
  - apply Z.ltb_lt in E. rewrite read_frames_take by lia.
    rewrite length_take. lia.
  - by rewrite read_frames_uncapped.
Qed.

(** X11.  The two conversion handlers never let an exception escape:
    whatever the upload and the storage do, they return a response. *)
Theorem handlers_never_raise (env : Env) (input_path output_path : string)
    (cols rows fps max_frames : Z) (w : World) :
  (exists r, fst (convert_image image_open quantize env input_path
                    output_path cols rows w) = Ok r)
  /\ (exists r, fst (convert_video quantize HAS_CV2 video_open env input_path
                       output_path cols rows fps max_frames w) = Ok r).
Proof.
  split.
  - unfold convert_image, except_Exception, bind.
    rewrite convert_image_eq.
    destruct (image_open input_path) as [img|]; [|eauto].
    destruct (quantize img _ _) as [cells|]; [|eauto]. simpl.
    destruct (open_ok env output_path); [|eauto].
    destruct (Struct.pack_HH _ _); [|eauto].
    unfold send_file. simpl. rewrite lookup_insert_eq. eauto.
  - unfold convert_video, except_Exception.
    destruct HAS_CV2; simpl; [|eauto].
    unfold bind at 1.
    unfold app_extract_frames_from_video, extract_frames_from_video. simpl.
    destruct (video_open input_path) as [[stream src]|]; simpl; [|eauto].
    destruct (read_frames stream _ 0) as [|img rest]; [eauto|].
    generalize (img :: rest). intros frames.
    unfold bind. rewrite convert_sequence_eq. cbv zeta.
    destruct (open_ok env output_path); [|eauto].
    destruct (Struct.pack_HHHH _ _ _ _); [|eauto].
    destruct (all_decode quantize _ _ _); [|eauto].
    unfold send_file. cbn [files]. rewrite lookup_insert_eq. eauto.
Qed.


End VideoMore.

(* ===================================================================== *)
(** * Further properties of paths and extensions *)
(* ===================================================================== *)

Module SplitFacts.
Import PyStr PyStrMore.

(** [rfind_from] returns the index of the last occurrence, when there is
    one. *)
Lemma rfind_from_spec (c : ascii) (s : string) (i last : Z) :
  (rfind_from c s i last = last /\ ~ has_char c s)
  \/ (exists pre post,
        s = pre +:+ String c post
        /\ rfind_from c s i last = i + Z.of_nat (String.length pre)
        /\ ~ has_char c post).
Proof.
  revert i last. induction s as [|x s IH]; intros i last.
  - left. split; [done|]. by intros [].
  - cbn [rfind_from].
    destruct (IH (i + 1) (if Ascii.eqb x c then i else last))
      as [[Hr Hn]|(pre & post & -> & Hr & Hn)].
    + destruct (Ascii.eqb x c) eqn:E.
      * apply Ascii.eqb_eq in E as ->. right. exists "", s.
        split; [done|]. split; [|done]. rewrite Hr. simpl. lia.
      * left. split; [done|]. intros [->|H]; [|done].
        by rewrite Ascii.eqb_refl in E.
    + right. exists (String x pre), post. split; [done|].
      split; [|done]. rewrite Hr. simpl. lia.
Qed.


Lemma has_char_app (c : ascii) (a b : string) :
  has_char c (a +:+ b) <-> has_char c a \/ has_char c b.
Proof.
  unfold has_char. induction a as [|x a IH].
  - rewrite PreviewFacts.string_app_nil_l. simpl. tauto.
  - rewrite PreviewFacts.string_app_cons. simpl. rewrite IH. tauto.
Qed.


End SplitFacts.


Module CaseFacts.
Import PyStr PyStrMore.















End CaseFacts.

Section RouteFacts.

Context {Frame : Type}.
Variable image_open : string -> option Frame.
Variable quantize : Frame -> Z -> Z -> option (list byte).
Variable HAS_CV2 : bool.
Variable video_open : string -> option (list Frame * Q).




Lemma upload_ext_no_dot (filename : string) :
  ~ PyStrMore.has_char "." filename -> upload_ext filename = "".
Proof.
  intros H. unfold upload_ext, PyStr.splitext, PyStr.rfind.
  rewrite (PathMore.rfind_from_absent "." filename) by done.
  replace (_ <? -1) with false; [done|].
  symmetry. apply Z.ltb_ge.
  destruct (SplitFacts.rfind_from_spec "/" filename 0 (-1))
    as [[-> _]|(pre & post & _ & -> & _)]; lia.
Qed.

(** X15.  A request without a file, with an empty file name, with a file
    name that has no dot, or with an extension outside the allowed ones
    is answered 400 and changes nothing. *)
Theorem image_route_rejects (env : Env) (upload : option string)
    (tmp_dir : string) (cols rows : Z) (w : World) :
  upload = None \/ upload = Some ""
  \/ (exists filename, upload = Some filename
                       /\ (~ PyStrMore.has_char "." filename
                           \/ upload_ext filename ∉ IMAGE_EXTENSIONS)) ->
  convert_image_route image_open quantize env upload tmp_dir cols rows w
  = (Ok (JsonError 400), w).
Proof.
  intros [->|[->|(filename & -> & Hext)]]; [done|done|].
  unfold convert_image_route.
  destruct (String.eqb filename ""); [done|].
  rewrite bool_decide_false; [done|].
  destruct Hext as [Hdot|Hext]; [|done].
  rewrite (upload_ext_no_dot _ Hdot). unfold IMAGE_EXTENSIONS.
  rewrite !elem_of_cons, elem_of_nil. intros H.
  repeat (destruct H as [H|H]; [discriminate|]). done.
Qed.

(** X16.  A conversion request served in a fresh temporary directory
    makes no backup: the vault is left as it was. *)
Theorem routes_make_no_backup (env : Env) (upload : option string)
    (tmp_dir : string) (cols rows fps max_frames : Z) (w : World) :
  files w !! PyStr.join tmp_dir "ascii_data.blob" = None ->
  files w !! PyStr.join tmp_dir "ascii_sequence.blob" = None ->
  vault (snd (convert_image_route image_open quantize env upload tmp_dir
                cols rows w)) = vault w
  /\ vault (snd (convert_video_route quantize HAS_CV2 video_open env upload
                   tmp_dir cols rows fps max_frames w)) = vault w.
Proof.
  intros Himg Hseq. split.
  - unfold convert_image_route.
    destruct upload as [filename|]; [|done].
    destruct (String.eqb filename ""); [done|].
    destruct (negb _); [done|].
    unfold convert_image, except_Exception, bind.
    rewrite convert_image_eq.
    rewrite (backup_blob_absent _ _ _ Himg).
    destruct (image_open _) as [img|]; [|done].
    destruct (quantize img _ _) as [cells|]; [|done]. cbv zeta. cbn [snd].
    destruct (open_ok env _); [|done].
    destruct (Struct.pack_HH _ _); [|done].
    unfold send_file. cbn [files]. by rewrite lookup_insert_eq.
  - unfold convert_video_route.
    destruct HAS_CV2 eqn:Hcv; [|done]. cbn [negb].
    destruct upload as [filename|]; [|done].
    destruct (String.eqb filename ""); [done|].
    destruct (negb _); [done|].
    unfold convert_video, except_Exception. cbn [negb].
    unfold bind at 1.
    unfold app_extract_frames_from_video, extract_frames_from_video.
    cbn [negb].
    destruct (video_open _) as [[stream src]|]; [|done].
    unfold ret. destruct (read_frames stream _ 0) as [|img rest]; [done|].
    generalize (img :: rest). intros frames.
    unfold bind. rewrite convert_sequence_eq. cbv zeta.
    rewrite (backup_blob_absent _ _ _ Hseq). cbn [snd].
    destruct (open_ok env _); [|done].
    destruct (Struct.pack_HHHH _ _ _ _); [|done].
    destruct (all_decode quantize _ _ _); [|done].
    unfold send_file. cbn [files]. by rewrite lookup_insert_eq.
Qed.

End RouteFacts.

(* ===================================================================== *)
(** * Further properties of the command line and the folder source *)
(* ===================================================================== *)

Section MainMore.

Context {Frame : Type}.
Variable image_open : string -> option Frame.
Variable quantize : Frame -> Z -> Z -> option (list byte).
Variable dir_entries : string -> option (list string).
Variable is_file : string -> bool.
Variable HAS_CV2 : bool.
Variable video_open : string -> option (list Frame * Q).






End MainMore.

Section FolderMore.





End FolderMore.

(* ===================================================================== *)
(** * Further properties of the playback rate and the preview ramp *)
(* ===================================================================== *)

(** X21.  The rate chosen when none is given: at least 1; within one half
    of the rate the video reports, when that is one half or more; and the
    reported rate itself when it is a whole number of at least 1.  The
    web service chooses the same. *)
Theorem auto_fps_nearest (source_fps : Q) (fps : Z) :
  1 <= video_fps None source_fps
  /\ ((1 # 2 <= source_fps)%Q ->
      (inject_Z (video_fps None source_fps) - (1 # 2) <= source_fps
       /\ source_fps <= inject_Z (video_fps None source_fps) + (1 # 2))%Q)
  /\ (forall n, 1 <= n -> video_fps None (inject_Z n) = n)
  /\ (fps <= 0 -> actual_fps fps source_fps = video_fps None source_fps).
Proof.
  unfold video_fps, actual_fps. cbn [truthy].
  split; [lia|]. split; [|split].
  - intros Hhalf.
    destruct (RoundFacts.round_nearest source_fps) as [H1 H2].
    destruct (Z.max_spec 1 (PyNum.round source_fps)) as [[Hlt ->]|[Hge ->]];
      [done|].
    assert (Hr0 : (inject_Z (PyNum.round source_fps) <= 1)%Q).
    { unfold Qle. cbn [inject_Z Qnum Qden]. lia. }
    change (inject_Z 1) with 1%Q. split; lra.
  - intros n Hn. rewrite RoundFacts.round_Z. lia.
  - intros Hf. replace (0 <? fps) with false; [done|].
    symmetry. apply Z.ltb_ge. lia.
Qed.

(** X22.  On the preview ramp only a brightness of 255 gives the
    brightest character, and exactly the brightness values up to 28 give
    the blank. *)
Theorem ramp_extremes (v : Z) :
  0 <= v <= 255 ->
  (App.ramp_index v = 9 <-> v = 255)
  /\ (App.ramp_index v = 0 <-> v <= 28)
  /\ (App.ramp_char (App.ramp_index v) = Some "@"%char <-> v = 255)
  /\ (App.ramp_char (App.ramp_index v) = Some " "%char <-> v <= 28).
Proof.
  intros Hv. rewrite PreviewFacts.ramp_index_eq.
  assert (H9 : v * 9 / 255 = 9 <-> v = 255).
  { split; [|by intros ->]. intros H.
    pose proof (Z.mul_div_le (v * 9) 255). lia. }
  assert (H0 : v * 9 / 255 = 0 <-> v <= 28).
  { split; intros H.
    - assert (v * 9 < 255); [|lia].
      pose proof (Z.div_small_iff (v * 9) 255). lia.
    - apply Z.div_small. lia. }
  split; [done|]. split; [done|].
  assert (Hr : 0 <= v * 9 / 255 <= 9).
  { split; [apply Z.div_pos; lia|apply Z.div_le_upper_bound; lia]. }
  rewrite <- H9, <- H0.
  assert (Hcases : forall k, 0 <= k <= 9 ->
            (App.ramp_char k = Some "@"%char <-> k = 9)
            /\ (App.ramp_char k = Some " "%char <-> k = 0)).
  { intros k Hk.
    assert (k = 0 \/ k = 1 \/ k = 2 \/ k = 3 \/ k = 4 \/ k = 5 \/ k = 6
            \/ k = 7 \/ k = 8 \/ k = 9) as Hc by lia.
    repeat (destruct Hc as [->|Hc]; [by split; split|]).
    subst k. by split; split. }
  destruct (Hcases (v * 9 / 255) Hr) as [Ha Hb]. done.
Qed.

(* ===================================================================== *)
(** * The test script *)
(* ===================================================================== *)

Section TestImageFacts.

Context {Frame : Type}.
Variable image_open : string -> option Frame.
Variable quantize : Frame -> Z -> Z -> option (list byte).

(** Every way the script can end. *)
Lemma generate_test_image_eq (env : Env) (png : list byte) (w : World) :
  generate_test_image image_open quantize env png w
  = if open_ok env "test_gradient.png" then
      match convert_image_to_ascii_bin image_open quantize env
              "test_gradient.png" 100 60 "ascii_data.blob"
              (mkWorld (<["test_gradient.png" := png]> (files w)) (vault w))
      with
      | (Ok _, w') =>
          match files w !! "ascii_data.bin" with
          | Some old =>
              match unpack_HH old with
              | Some (cols, rows) => (Ok (cols, rows, drop 4 old), w')
              | None => (Raise StructError, w')
              end
          | None => (Raise OSError, w')
          end
      | (Raise e, w') => (Raise e, w')
      end
    else (Raise OSError, w).
Proof.
  unfold generate_test_image. unfold bind at 1. unfold OS.open_wb.
  destruct (open_ok env "test_gradient.png"); [|done].
  unfold bind at 1. unfold OS.write at 1. cbn [files vault].
  rewrite alter_insert_eq. cbn [app].
  unfold bind at 1.
  pose proof (convert_image_other image_open quantize env "test_gradient.png"
                100 60 "ascii_data.blob" "ascii_data.bin"
                (mkWorld (<["test_gradient.png" := png]> (files w)) (vault w)))
    as Hother.
  destruct (convert_image_to_ascii_bin _ _ _ _ _ _ _ _) as [[[]|e] w'];
    [|done].
  cbn [snd files] in Hother.
  rewrite lookup_insert_ne in Hother by done.
  unfold bind at 1. unfold read_rb. rewrite Hother by done.
  destruct (files w !! "ascii_data.bin") as [old|]; [|done].
  unfold bind, lift_opt.
  destruct (unpack_HH old) as [[cols rows]|]; done.
Qed.

(** X23.  The test script checks a file the conversion does not write: it
    converts to [ascii_data.blob] and then reads [ascii_data.bin].  Where
    no [ascii_data.bin] exists the script never ends well, and with
    working storage it fails on the missing file after the blob was
    written.  Where one exists, the header and body the script reports
    are those of that older file, whatever the image. *)
Theorem test_script_reads_other_file (env : Env) (png : list byte)
    (w : World) :
  (files w !! "ascii_data.bin" = None ->
   (exists e, fst (generate_test_image image_open quantize env png w)
              = Raise e)
   /\ (forall img cells,
         open_ok env "test_gradient.png" = true ->
         open_ok env "ascii_data.blob" = true ->
         image_open "test_gradient.png" = Some img ->
         quantize img 100 60 = Some cells ->
         fst (generate_test_image image_open quantize env png w)
         = Raise OSError
         /\ files (snd (generate_test_image image_open quantize env png w))
              !! "ascii_data.blob"
            = Some ([Byte.x64; Byte.x00; Byte.x3c; Byte.x00] ++ cells)))
  /\ (forall old cols rows body,
        files w !! "ascii_data.bin" = Some old ->
        fst (generate_test_image image_open quantize env png w)
        = Ok (cols, rows, body) ->
        unpack_HH old = Some (cols, rows) /\ body = drop 4 old
        /\ files (snd (generate_test_image image_open quantize env png w))
             !! "ascii_data.bin" = Some old).
Proof.
  split.
  - intros Hnone. split.
    + rewrite generate_test_image_eq, Hnone.
      destruct (open_ok env "test_gradient.png"); [|by eexists].
      destruct (convert_image_to_ascii_bin _ _ _ _ _ _ _ _) as [[[]|e] w'];
        by eexists.
    + intros img cells Ho1 Ho2 Himg Hq.
      rewrite generate_test_image_eq, Hnone, Ho1.
      rewrite convert_image_eq, Himg, Hq. cbv zeta. rewrite Ho2.
      change (Struct.pack_HH 100 60)
        with (Some [Byte.x64; Byte.x00; Byte.x3c; Byte.x00]).
      cbn [fst snd files]. by rewrite lookup_insert_eq.
  - intros old cols rows body Hold.
    pose proof (convert_image_other image_open quantize env "test_gradient.png"
                  100 60 "ascii_data.blob" "ascii_data.bin"
                  (mkWorld (<["test_gradient.png" := png]> (files w))
                     (vault w))) as Hother.
    rewrite generate_test_image_eq, Hold.
    destruct (open_ok env "test_gradient.png"); [|discriminate].
    destruct (convert_image_to_ascii_bin _ _ _ _ _ _ _ _) as [[[]|e] w'];
      [|discriminate].
    cbn [snd files] in Hother.
    rewrite lookup_insert_ne in Hother by done.
    destruct (unpack_HH old) as [[c r]|]; [|discriminate].
    cbn [fst snd]. intros [= <- <- <-].
    by rewrite Hother.
Qed.

End TestImageFacts.

(* ===================================================================== *)
(** * The preview and the cells of the blob *)
(* ===================================================================== *)

Section PreviewContent.

Context {Frame : Type}.
Variable quantize : Frame -> Z -> Z -> option (list byte).

Hypothesis quantize_length :
  forall img cols rows cells,
    quantize img cols rows = Some cells ->
    Z.of_nat (length cells) = cols * rows.

Lemma mapM_lookup {A B} (f : A -> option B) (l : list A) (k : list B)
    (i : nat) (x : A) :
  mapM f l = Some k -> l !! i = Some x ->
  exists y, k !! i = Some y /\ f x = Some y.
Proof.
  intros Hm Hx. apply mapM_Some_1 in Hm.
  destruct (Forall2_lookup_l _ _ _ _ _ Hm Hx) as (y & Hy & Hf). eauto.
Qed.

Lemma string_get_of_list (l : list ascii) (n : nat) :
  String.get n (String.string_of_list_ascii l) = l !! n.
Proof.
  revert n. induction l as [|c l IH]; intros [|n]; simpl; try done.
Qed.

(** X24.  The preview shows the cells of the blob: for an image that
    decodes, the character in line [row], column [col] of the preview is
    the ramp character of the cell at [row*cols + col] of the resized
    image, the cell a conversion with the same grid writes at that place
    of the body. *)
Theorem preview_shows_cells (img : Frame) (cols rows : Z)
    (pixels : list byte) :
  quantize img (clamp cols) (clamp rows) = Some pixels ->
  exists lines,
    preview quantize (Some img) cols rows
    = JsonPreview (String.concat App.newline lines) (clamp cols) (clamp rows)
    /\ (forall row col,
          0 <= row < clamp rows -> 0 <= col < clamp cols ->
          exists line cell,
            lines !! Z.to_nat row = Some line
            /\ pixels !! Z.to_nat (row * clamp cols + col) = Some cell
            /\ String.get (Z.to_nat col) line
               = App.ramp_char (App.ramp_index (Struct.Z_of_byte cell))
            /\ is_Some (String.get (Z.to_nat col) line)).
Proof.
  intros Hq.
  pose proof (clamp_range cols) as Hc. pose proof (clamp_range rows) as Hr.
  pose proof (quantize_length _ _ _ _ Hq) as Hl.
  destruct (mapM_Forall (preview_line pixels (clamp cols))
              (App.ramp_line (clamp cols)) (seqZ 0 (clamp rows)))
    as (lines & Hm & _ & _).
  { intros row Hrow. apply elem_of_seqZ in Hrow.
    eapply preview_line_ok; eauto; lia. }
  exists lines. unfold preview. rewrite Hq. unfold preview_lines.
  rewrite Hm. split; [reflexivity|].
  intros row col Hrow Hcol.
  destruct (mapM_lookup _ _ _ (Z.to_nat row) row Hm) as (line & Hline & Hpl).
  { rewrite lookup_seqZ. split; lia. }
  unfold preview_line in Hpl.
  destruct (mapM (preview_char pixels (clamp cols) row) (seqZ 0 (clamp cols)))
    as [chars|] eqn:Hchars; [|discriminate].
  simpl in Hpl. injection Hpl as <-.
  destruct (mapM_lookup _ _ _ (Z.to_nat col) col Hchars) as (c & Hcc & Hpc).
  { rewrite lookup_seqZ. split; lia. }
  unfold preview_char in Hpc.
  destruct (pixels !! Z.to_nat (row * clamp cols + col)) as [cell|] eqn:Hcell;
    [|discriminate].
  simpl in Hpc. eexists _, cell. split; [exact Hline|]. split; [done|].
  rewrite string_get_of_list, Hcc, Hpc. by eauto.
Qed.

End PreviewContent.

(* ===================================================================== *)
(** * The further properties on the small decoder *)
(* ===================================================================== *)



Lemma sequence_blob_layout_witness :
  exists data grids,
    files (snd (convert_sequence_to_blob Fixture.quantize
                  (Fixture.env_ok "20240101_120000")
                  [Fixture.Solid Byte.x0a; Fixture.Solid Byte.x0b] 2 1 24
                  "ascii_sequence.blob" Fixture.empty_world))
      !! "ascii_sequence.blob" = Some data
    /\ mapM (fun img => Fixture.quantize img 2 1)
            (take (Z.to_nat 65535)
                  [Fixture.Solid Byte.x0a; Fixture.Solid Byte.x0b])
       = Some grids
    /\ Struct.unpack_H data 0 = Some 2
    /\ Struct.unpack_H data 2 = Some 1
    /\ Struct.unpack_H data 4
       = Some (Z.min 65535
                 (Z.of_nat (length [Fixture.Solid Byte.x0a;
                                    Fixture.Solid Byte.x0b])))
    /\ Struct.unpack_H data 6 = Some 24
    /\ Z.of_nat (length grids)
       = Z.min 65535
           (Z.of_nat (length [Fixture.Solid Byte.x0a; Fixture.Solid Byte.x0b]))
    /\ Z.of_nat (length data)
       = 8 + Z.min 65535
               (Z.of_nat (length [Fixture.Solid Byte.x0a;
                                  Fixture.Solid Byte.x0b])) * (2 * 1)
    /\ (forall (k : nat) grid,
          grids !! k = Some grid ->
          take (Z.to_nat (2 * 1)) (drop (8 + k * Z.to_nat (2 * 1)) data)
          = grid).
Proof.
  apply (sequence_blob_layout Fixture.quantize FixtureFacts.quantize_length
           (Fixture.env_ok "20240101_120000")
           [Fixture.Solid Byte.x0a; Fixture.Solid Byte.x0b] 2 1 24
           "ascii_sequence.blob" Fixture.empty_world).
  apply injective_projections; [vm_compute; reflexivity | reflexivity].
Defined.

Lemma backup_skipped_changes_nothing_witness :
  backup_blob (Fixture.env_readonly_vault "20240101_120000")
    "ascii_data.blob" (mkWorld {["ascii_data.blob" := [Byte.x01]]} ∅)
  = (Ok tt, mkWorld {["ascii_data.blob" := [Byte.x01]]} ∅).
Proof.
  apply (backup_skipped_changes_nothing
           (Fixture.env_readonly_vault "20240101_120000") "ascii_data.blob"
           (mkWorld {["ascii_data.blob" := [Byte.x01]]} ∅)).
  right. left. reflexivity.
Defined.

Lemma backup_keeps_earlier_backups_witness :
  exists w',
    backup_blob (Fixture.env_ok "20240101_120500") "art/out.blob"
      VaultFixture.world = (Ok tt, w')
    /\ vault VaultFixture.world
         !! backup_name (backup_base "art/out.blob") (Z.of_nat 1 + 1)
              (now (Fixture.env_ok "20240101_120500")) = None
    /\ vault w' !! backup_name (backup_base "art/out.blob") (Z.of_nat 1 + 1)
                     (now (Fixture.env_ok "20240101_120500"))
       = Some [Byte.x02]
    /\ (forall name c,
          vault VaultFixture.world !! name = Some c ->
          vault w' !! name = Some c)
    /\ backup_count (backup_base "art/out.blob") (vault w') = 2%nat
    /\ numbered_upto (backup_base "art/out.blob") 2 (vault w').
Proof.
  apply (backup_keeps_earlier_backups (Fixture.env_ok "20240101_120500")
           "art/out.blob" VaultFixture.world [Byte.x02] 1).
  - apply lookup_singleton_eq.
  - reflexivity.
  - reflexivity.
  - reflexivity.
  - vm_compute. reflexivity.
  - intros name [c Hc] Hs. cbn [vault VaultFixture.world] in Hc.
    apply lookup_insert_Some in Hc as [[<- _]|[_ Hc]].
    + exists 1, "20240101_120000". split; [lia|]. vm_compute. reflexivity.
    + apply lookup_singleton_Some in Hc as [<- _].
      vm_compute in Hs. discriminate Hs.
Defined.

Lemma backup_base_ignores_directory_witness :
  (~ PyStrMore.has_char "/" "out.blob")
  /\ backup_base ("art/2024" +:+ "/" +:+ "out.blob") = backup_base "out.blob".
Proof.
  assert (H : ~ PyStrMore.has_char "/" "out.blob").
  { unfold PyStrMore.has_char. simpl. intros Hin.
    repeat (destruct Hin as [Hin|Hin]; [discriminate Hin|]). exact Hin. }
  split; [exact H|].
  apply (backup_base_ignores_directory "art/2024" "out.blob" H).
Defined.

Lemma convert_video_frame_count_witness :
  exists stream source_fps,
    Fixture.video_open "clip.mp4" = Some (stream, source_fps)
    /\ stream <> []
    /\ Struct.unpack_H [Byte.x02; Byte.x00; Byte.x01; Byte.x00;
                        Byte.x02; Byte.x00; Byte.x1e; Byte.x00;
                        Byte.x01; Byte.x01; Byte.x02; Byte.x02] 0
       = Some (clamp 2)
    /\ Struct.unpack_H [Byte.x02; Byte.x00; Byte.x01; Byte.x00;
                        Byte.x02; Byte.x00; Byte.x1e; Byte.x00;
                        Byte.x01; Byte.x01; Byte.x02; Byte.x02] 2
       = Some (clamp 1)
    /\ Struct.unpack_H [Byte.x02; Byte.x00; Byte.x01; Byte.x00;
                        Byte.x02; Byte.x00; Byte.x1e; Byte.x00;
                        Byte.x01; Byte.x01; Byte.x02; Byte.x02] 4
       = Some (Z.min 65535
                 (if 0 <? 2 then Z.min 2 (Z.of_nat (length stream))
                  else Z.of_nat (length stream))).
Proof.
  apply (convert_video_frame_count Fixture.quantize true Fixture.video_open
           (Fixture.env_ok "20240101_120000") "clip.mp4"
           "tmp1/ascii_sequence.blob" 2 1 0 2 Fixture.empty_world
           (snd (convert_video Fixture.quantize true Fixture.video_open
                   (Fixture.env_ok "20240101_120000") "clip.mp4"
                   "tmp1/ascii_sequence.blob" 2 1 0 2 Fixture.empty_world))).
  apply injective_projections; [vm_compute; reflexivity | reflexivity].
Defined.

Lemma image_route_rejects_witness :
  convert_image_route Fixture.image_open Fixture.quantize
    (Fixture.env_ok "20240101_120000") (Some "notes.txt") "tmp1" 4 2
    Fixture.empty_world
  = (Ok (JsonError 400), Fixture.empty_world).
Proof.
  apply (image_route_rejects Fixture.image_open Fixture.quantize
           (Fixture.env_ok "20240101_120000") (Some "notes.txt") "tmp1" 4 2
           Fixture.empty_world).
  right. right. exists "notes.txt". split; [reflexivity|]. right.
  apply (bool_decide_eq_false_1 (upload_ext "notes.txt" ∈ IMAGE_EXTENSIONS)).
  vm_compute. reflexivity.
Defined.

Lemma routes_make_no_backup_witness :
  vault (snd (convert_image_route ServiceFixture.image_open Fixture.quantize
                (Fixture.env_ok "20240101_120000") (Some "input.GIF") "tmp1"
                4 2
                (mkWorld ∅ {["out_001_20240101_120000.blob" := [Byte.x01]]})))
  = vault (mkWorld ∅ {["out_001_20240101_120000.blob" := [Byte.x01]]})
  /\ vault (snd (convert_video_route Fixture.quantize true
                   ServiceFixture.video_open
                   (Fixture.env_ok "20240101_120000") (Some "input.GIF")
                   "tmp1" 4 2 0 0
                   (mkWorld ∅
                      {["out_001_20240101_120000.blob" := [Byte.x01]]})))
     = vault (mkWorld ∅ {["out_001_20240101_120000.blob" := [Byte.x01]]}).
Proof.
  apply (routes_make_no_backup ServiceFixture.image_open Fixture.quantize
           true ServiceFixture.video_open (Fixture.env_ok "20240101_120000")
           (Some "input.GIF") "tmp1" 4 2 0 0
           (mkWorld ∅ {["out_001_20240101_120000.blob" := [Byte.x01]]}));
    apply lookup_empty.
Defined.



Lemma auto_fps_nearest_witness :
  1 <= video_fps None (2997 # 100)
  /\ ((inject_Z (video_fps None (2997 # 100)) - (1 # 2) <= 2997 # 100)%Q
      /\ (2997 # 100 <= inject_Z (video_fps None (2997 # 100)) + (1 # 2))%Q)
  /\ video_fps None (inject_Z 24) = 24
  /\ actual_fps 0 (2997 # 100) = video_fps None (2997 # 100).
Proof.
  destruct (auto_fps_nearest (2997 # 100) 0) as (H1 & H2 & H3 & H4).
  split; [exact H1|]. split; [apply H2; discriminate|].
  split; [apply H3; lia | apply H4; lia].
Defined.

Lemma ramp_extremes_witness :
  (0 <= 28 <= 255)
  /\ (App.ramp_index 28 = 9 <-> 28 = 255)
  /\ (App.ramp_index 28 = 0 <-> 28 <= 28)
  /\ (App.ramp_char (App.ramp_index 28) = Some "@"%char <-> 28 = 255)
  /\ (App.ramp_char (App.ramp_index 28) = Some " "%char <-> 28 <= 28).
Proof.
  split; [lia|]. apply (ramp_extremes 28). lia.
Defined.




Lemma test_script_reads_other_file_witness :
  ((exists e,
      fst (generate_test_image ScriptFixture.image_open Fixture.quantize
             (Fixture.env_ok "20240101_120000") [Byte.x89]
             Fixture.empty_world) = Raise e)
   /\ fst (generate_test_image ScriptFixture.image_open Fixture.quantize
             (Fixture.env_ok "20240101_120000") [Byte.x89]
             Fixture.empty_world) = Raise OSError
   /\ files (snd (generate_test_image ScriptFixture.image_open
                    Fixture.quantize (Fixture.env_ok "20240101_120000")
                    [Byte.x89] Fixture.empty_world)) !! "ascii_data.blob"
      = Some ([Byte.x64; Byte.x00; Byte.x3c; Byte.x00]
                ++ replicate (Z.to_nat (100 * 60)) Byte.x80))
  /\ (unpack_HH [Byte.x04; Byte.x00; Byte.x02; Byte.x00; Byte.x07]
      = Some (4, 2)
      /\ [Byte.x07]
         = drop 4 [Byte.x04; Byte.x00; Byte.x02; Byte.x00; Byte.x07]
      /\ files (snd (generate_test_image ScriptFixture.image_open
                       Fixture.quantize (Fixture.env_ok "20240101_120000")
                       [Byte.x89]
                       (mkWorld
                          {["ascii_data.bin" :=
                              [Byte.x04; Byte.x00; Byte.x02; Byte.x00;
                               Byte.x07]]} ∅))) !! "ascii_data.bin"
         = Some [Byte.x04; Byte.x00; Byte.x02; Byte.x00; Byte.x07]).
Proof.
  split.
  - destruct (test_script_reads_other_file ScriptFixture.image_open
                Fixture.quantize (Fixture.env_ok "20240101_120000")
                [Byte.x89] Fixture.empty_world) as [Habsent _].
    destruct Habsent as [Hfails Hblob]; [apply lookup_empty|].
    split; [exact Hfails|].
    apply (Hblob (Fixture.Solid Byte.x80)); reflexivity.
  - destruct (test_script_reads_other_file ScriptFixture.image_open
                Fixture.quantize (Fixture.env_ok "20240101_120000")
                [Byte.x89]
                (mkWorld
                   {["ascii_data.bin" :=
                       [Byte.x04; Byte.x00; Byte.x02; Byte.x00; Byte.x07]]}
                   ∅)) as [_ Hpresent].
    apply Hpresent; [apply lookup_singleton_eq|].
    vm_compute. reflexivity.
Defined.

Lemma preview_shows_cells_witness :
  exists lines,
    preview Fixture.quantize (Some (Fixture.Solid Byte.x80)) 4 2
    = JsonPreview (String.concat App.newline lines) (clamp 4) (clamp 2)
    /\ (forall row col,
          0 <= row < clamp 2 -> 0 <= col < clamp 4 ->
          exists line cell,
            lines !! Z.to_nat row = Some line
            /\ replicate (Z.to_nat (clamp 4 * clamp 2)) Byte.x80
                 !! Z.to_nat (row * clamp 4 + col) = Some cell
            /\ String.get (Z.to_nat col) line
               = App.ramp_char (App.ramp_index (Struct.Z_of_byte cell))
            /\ is_Some (String.get (Z.to_nat col) line)).
Proof.
  apply (preview_shows_cells Fixture.quantize FixtureFacts.quantize_length
           (Fixture.Solid Byte.x80) 4 2
           (replicate (Z.to_nat (clamp 4 * clamp 2)) Byte.x80)).
  reflexivity.
Defined.
